(** * Multiple-PDF-RAG: the document registry and retrieval-augmented answering

    A shallow embedding of [backend/pdf_processor.py] (class [PDFManager]) and
    of [backend/llm_service.py] ([get_response]), with the properties of the
    design document stated and settled against it.

    Python dictionaries are insertion-ordered association lists; a method of
    [PDFManager] is a computation in a state-and-exception monad in which a
    raised exception keeps the mutations made before it, as in Python.  The
    third-party collaborators (PDF decoding, text splitting, embedding and
    index construction, similarity ranking) are the fields of the class
    [Collaborators]; the values drawn by [uuid.uuid4] and by
    [tempfile.NamedTemporaryFile] are extra arguments of [process_pdf]. *)

From Stdlib Require Import String List Bool Arith Lia Ascii Permutation Sorted.
From Stdlib Require Import Strings.Byte.
From Stdlib Require Import ZArith DecimalString.
Import ListNotations.
Open Scope string_scope.
Open Scope list_scope.

(** ** Exceptions and results *)

Inductive exn : Type :=
| KeyError (key : string)
| IndexError (msg : string)
| External (cls msg : string).

Inductive result (A : Type) : Type :=
| Ok (a : A)
| Raise (e : exn).

Arguments Ok {A} a.
Arguments Raise {A} e.

(** ** Python dictionaries (insertion-ordered) *)

Section Dict.
Context {V : Type}.

Definition dict : Type := list (string * V).

(** [d.get(k)] *)
Fixpoint dict_get (k : string) (d : dict) : option V :=
  match d with
  | [] => None
  | (k', v) :: d' => if String.eqb k' k then Some v else dict_get k d'
  end.

(** [k in d] *)
Fixpoint dict_mem (k : string) (d : dict) : bool :=
  match d with
  | [] => false
  | (k', _) :: d' => if String.eqb k' k then true else dict_mem k d'
  end.

(** [d[k] = v]: an existing key keeps its position, a new key goes last *)
Fixpoint dict_set (k : string) (v : V) (d : dict) : dict :=
  match d with
  | [] => [(k, v)]
  | (k', v') :: d' =>
      if String.eqb k' k then (k', v) :: d' else (k', v') :: dict_set k v d'
  end.

(** [del d[k]] on a dictionary that holds [k] *)
Definition dict_del (k : string) (d : dict) : dict :=
  filter (fun kv => negb (String.eqb (fst kv) k)) d.

(** [list(d.keys())] and [list(d.values())] *)
Definition dict_keys (d : dict) : list string := map fst d.
Definition dict_values (d : dict) : list V := map snd d.
End Dict.

Arguments dict V : clear implicits.

(** ** Documents and vector stores *)

Inductive meta_value : Type :=
| MStr (s : string)
| MInt (n : nat).

(** langchain's [Document]: a text and its metadata dictionary *)
Record Document : Type := mkDocument {
  page_content : string;
  metadata : dict meta_value
}.

(** A FAISS store, as far as this program observes it: the documents it
    indexes, in insertion order.  Embeddings are a function of the text, so the
    store is determined by its documents. *)
Record FAISS : Type := mkFAISS {
  docstore : list Document
}.

(** A chat model's reply; [StrOutputParser] returns its [content]. *)
Record AIMessage : Type := mkAIMessage {
  content : string
}.

(** ** The collaborators outside the repository *)

Class Collaborators : Type := {
  (** the PDF decoder behind [PyPDFLoader]: the page texts, or the error *)
  decode_pages : list byte -> result (list string);
  (** [RecursiveCharacterTextSplitter(chunk_size, chunk_overlap).split_text] *)
  split_text : nat -> nat -> string -> list string;
  (** embedding and index construction inside [FAISS.from_documents]:
      [Some e] when it raises [e] on these documents *)
  index_error : list Document -> option exn;
  (** the rank key of a segment for a query (L2 distance of the embeddings;
      only its order is used, smaller is closer) *)
  distance : string -> Document -> nat;
  (** the text Python puts in the prompt for a list of documents *)
  repr_documents : list Document -> string
}.

(** ** The registry state *)

Record PDFManager : Type := mkPDFManager {
  vectorstores : dict FAISS;
  pdf_names : dict string;
  documents : dict (list Document);
  combined_vectorstore : option FAISS
}.

(** [PDFManager.__init__] *)
Definition init : PDFManager :=
  {| vectorstores := []; pdf_names := []; documents := [];
     combined_vectorstore := None |}.

Definition with_vectorstores (f : dict FAISS -> dict FAISS) (st : PDFManager) :=
  {| vectorstores := f (vectorstores st); pdf_names := pdf_names st;
     documents := documents st;
     combined_vectorstore := combined_vectorstore st |}.

Definition with_pdf_names (f : dict string -> dict string) (st : PDFManager) :=
  {| vectorstores := vectorstores st; pdf_names := f (pdf_names st);
     documents := documents st;
     combined_vectorstore := combined_vectorstore st |}.

Definition with_documents
    (f : dict (list Document) -> dict (list Document)) (st : PDFManager) :=
  {| vectorstores := vectorstores st; pdf_names := pdf_names st;
     documents := f (documents st);
     combined_vectorstore := combined_vectorstore st |}.

Definition with_combined (c : option FAISS) (st : PDFManager) :=
  {| vectorstores := vectorstores st; pdf_names := pdf_names st;
     documents := documents st; combined_vectorstore := c |}.

(** ** State and exceptions *)

Definition M (A : Type) : Type := PDFManager -> result A * PDFManager.

Definition ret {A} (a : A) : M A := fun st => (Ok a, st).

Definition bind {A B} (m : M A) (f : A -> M B) : M B :=
  fun st =>
    match m st with
    | (Ok a, st') => f a st'
    | (Raise e, st') => (Raise e, st')
    end.

Definition lift {A} (r : result A) : M A := fun st => (r, st).

Definition gets {A} (f : PDFManager -> A) : M A := fun st => (Ok (f st), st).

Definition modify (f : PDFManager -> PDFManager) : M unit :=
  fun st => (Ok tt, f st).

Declare Scope py_scope.
Delimit Scope py_scope with py.
Notation "x <- m ;; k" := (bind m (fun x => k))
  (at level 61, m at next level, right associativity) : py_scope.
Notation "m ;; k" := (bind m (fun _ => k))
  (at level 61, right associativity) : py_scope.

(** [del self.<field>[k]], which raises [KeyError] on a missing key *)
Definition del_item {V} (field : PDFManager -> dict V)
    (update : (dict V -> dict V) -> PDFManager -> PDFManager)
    (k : string) : M unit :=
  fun st =>
    if dict_mem k (field st) then (Ok tt, update (dict_del k) st)
    else (Raise (KeyError k), st).

Section Registry.
Context {E : Collaborators}.

(** [PyPDFLoader(tmp_path).load()]: one document per page, with the path
    of the file read and the page number as metadata *)
Fixpoint pages_from (tmp_path : string) (i : nat) (texts : list string)
    : list Document :=
  match texts with
  | [] => []
  | t :: ts =>
      mkDocument t [("source", MStr tmp_path); ("page", MInt i)]
        :: pages_from tmp_path (S i) ts
  end.

Definition PyPDFLoader_load (tmp_path : string) (file_content : list byte)
    : result (list Document) :=
  match decode_pages file_content with
  | Ok texts => Ok (pages_from tmp_path 0 texts)
  | Raise e => Raise e
  end.

(** [text_splitter.split_documents(pages)]: every chunk of a page carries a
    copy of the page's metadata *)
Definition split_documents (chunk_size chunk_overlap : nat)
    (pages : list Document) : list Document :=
  flat_map
    (fun page =>
       map (fun chunk => mkDocument chunk (metadata page))
           (split_text chunk_size chunk_overlap (page_content page)))
    pages.

(** [FAISS.from_documents(docs, self.embeddings)] *)
Definition FAISS_from_documents (docs : list Document) : result FAISS :=
  match index_error docs with
  | Some e => Raise e
  | None => Ok (mkFAISS docs)
  end.

(** the loop body of [process_pdf], lines 39-41 *)
Definition stamp (file_name pdf_id : string) (page : Document) : Document :=
  mkDocument (page_content page)
    (dict_set "pdf_id" (MStr pdf_id)
       (dict_set "source" (MStr file_name) (metadata page))).

(** the local [splits] of [process_pdf], lines 35-49 *)
Definition process_pdf_splits (pdf_id tmp_path : string)
    (file_content : list byte) (file_name : string)
    : result (list Document) :=
  match PyPDFLoader_load tmp_path file_content with
  | Ok pages =>
      Ok (split_documents 1000 200 (map (stamp file_name pdf_id) pages))
  | Raise e => Raise e
  end.

(** the [else] branch input of [_update_combined_vectorstore], lines 88-91 *)
Definition all_docs (st : PDFManager) : list Document :=
  flat_map snd (documents st).

Definition _update_combined_vectorstore : M unit :=
  (vs <- gets vectorstores ;;
   match vs with
   | [] => ret tt
   | [(pdf_id, _)] =>
       match dict_get pdf_id vs with
       | Some v => modify (with_combined (Some v))
       | None => lift (Raise (KeyError pdf_id))
       end
   | _ =>
       docs <- gets all_docs ;;
       combined <- lift (FAISS_from_documents docs) ;;
       modify (with_combined (Some combined))
   end)%py.

(** [process_pdf]; [pdf_id] is the value of [uuid.uuid4()] and [tmp_path]
    the name of the temporary file.  The [except] clause logs and re-raises
    and the [finally] clause removes the temporary file: neither touches
    the registry. *)
Definition process_pdf (pdf_id tmp_path : string)
    (file_content : list byte) (file_name : string) : M string :=
  (splits <- lift (process_pdf_splits pdf_id tmp_path file_content file_name) ;;
   modify (with_documents (dict_set pdf_id splits)) ;;
   vectorstore <- lift (FAISS_from_documents splits) ;;
   modify (with_vectorstores (dict_set pdf_id vectorstore)) ;;
   modify (with_pdf_names (dict_set pdf_id file_name)) ;;
   _update_combined_vectorstore ;;
   ret pdf_id)%py.

Definition get_combined_vectorstore (st : PDFManager) : option FAISS :=
  combined_vectorstore st.

Definition get_pdf_name (pdf_id : string) (st : PDFManager) : option string :=
  dict_get pdf_id (pdf_names st).

Definition list_pdfs (st : PDFManager) : dict string := pdf_names st.

Definition remove_pdf (pdf_id : string) : M bool :=
  (vs <- gets vectorstores ;;
   if dict_mem pdf_id vs then
     del_item vectorstores with_vectorstores pdf_id ;;
     del_item pdf_names with_pdf_names pdf_id ;;
     docs <- gets documents ;;
     (if dict_mem pdf_id docs
      then del_item documents with_documents pdf_id
      else ret tt) ;;
     _update_combined_vectorstore ;;
     ret true
   else ret false)%py.
End Registry.


(** ** Retrieval-augmented answering ([llm_service.py]) *)

Definition nl : string := String (ascii_of_nat 10) EmptyString.
Definition indent : string := "        ".

Definition no_pdfs_message : string :=
  "No PDFs have been uploaded yet. Please upload at least one PDF first.".

(** [PromptTemplate(template=...).format(context=..., question=...)] *)
Definition template_format (context question : string) : string :=
  nl ++ indent
  ++ "Answer the question properly based on the following context from PDF documents."
  ++ nl ++ indent
  ++ nl ++ indent
  ++ "For each piece of information you use in your answer, mention which PDF document it came from."
  ++ nl ++ indent
  ++ "If the information needed to answer the question is not present in any of the PDF documents, "
  ++ nl ++ indent
  ++ "clearly state that the information is not present in the uploaded PDFs."
  ++ nl ++ indent
  ++ nl ++ indent ++ "Context: " ++ context
  ++ nl ++ indent ++ "Question: " ++ question
  ++ nl ++ indent
  ++ nl ++ indent ++ "Answer: "
  ++ nl ++ indent.

(** A chat model: the reply to a prompt, or the exception of the call. *)
Definition ChatModel : Type := string -> result AIMessage.

Section Answering.
Context {E : Collaborators}.

(** insertion of a document before the first one that is not closer *)
Fixpoint insert_by_distance (query : string) (d : Document)
    (l : list Document) : list Document :=
  match l with
  | [] => [d]
  | x :: l' =>
      if Nat.leb (distance query d) (distance query x) then d :: l
      else x :: insert_by_distance query d l'
  end.

Fixpoint sort_by_distance (query : string) (l : list Document)
    : list Document :=
  match l with
  | [] => []
  | d :: l' => insert_by_distance query d (sort_by_distance query l')
  end.

(** [vectorstore.similarity_search(query, k)]: the [k] closest documents,
    closest first, equally close ones in store order *)
Definition similarity_search (vectorstore : FAISS) (query : string) (k : nat)
    : list Document :=
  firstn k (sort_by_distance query (docstore vectorstore)).

(** [vectorstore.as_retriever(search_kwargs={"k": 5})] *)
Definition retriever (vectorstore : FAISS) (query : string) : list Document :=
  similarity_search vectorstore query 5.

(** [rag_chain.invoke(query)]: retriever and identity in parallel, then the
    prompt, the model and [StrOutputParser].  The second component is the
    list of prompts sent to the model, in order. *)
Definition rag_chain_invoke (llm : ChatModel) (vectorstore : FAISS)
    (query : string) : result string * list string :=
  let context := retriever vectorstore query in
  let prompt := template_format (repr_documents context) query in
  match llm prompt with
  | Ok message => (Ok (content message), [prompt])
  | Raise e => (Raise e, [prompt])
  end.

(** [get_response(llm, query)], reading the global [pdf_manager] *)
Definition get_response (llm : ChatModel) (query : string) (st : PDFManager)
    : result string * list string :=
  match get_combined_vectorstore st with
  | None => (Ok no_pdfs_message, [])
  | Some vectorstore => rag_chain_invoke llm vectorstore query
  end.
End Answering.

(** ** Histories of registry operations *)

Inductive op : Type :=
| Upload (pdf_id tmp_path : string) (file_content : list byte)
         (file_name : string)
| Delete (pdf_id : string).

Section Histories.
Context {E : Collaborators}.

(** the registry after one request, whether it returned or raised *)
Definition step (st : PDFManager) (o : op) : PDFManager :=
  match o with
  | Upload pdf_id tmp_path file_content file_name =>
      snd (process_pdf pdf_id tmp_path file_content file_name st)
  | Delete pdf_id => snd (remove_pdf pdf_id st)
  end.

Definition run (ops : list op) : PDFManager := fold_left step ops init.

(** the segments of the registered documents: those listed by [list_pdfs] *)
Definition registered_segments (st : PDFManager) : list Document :=
  flat_map
    (fun pdf_id =>
       match dict_get pdf_id (documents st) with
       | Some segs => segs
       | None => []
       end)
    (dict_keys (pdf_names st)).

(** the segments held by the merged index, none when it is absent *)
Definition merged_segments (st : PDFManager) : list Document :=
  match combined_vectorstore st with
  | Some vs => docstore vs
  | None => []
  end.
End Histories.

(** ** Model providers ([llm_service.py], [get_llm]) *)

(** A configured chat client, with the keyword arguments it was built from.
    The temperature is a Python float that the program only passes on. *)
Inductive ChatClient (float : Type) : Type :=
| ChatOpenAI (temperature : float) (api_key model : string) (max_tokens : Z)
| ChatGroq (api_key model : string) (temperature : float) (max_tokens : Z).

Arguments ChatOpenAI {float} temperature api_key model max_tokens.
Arguments ChatGroq {float} api_key model temperature max_tokens.

(** [get_llm]; its [except] clause logs and re-raises *)
Definition get_llm {float : Type} (model_type model_name api_key : string)
    (temperature : float) (max_tokens : Z) : result (ChatClient float) :=
  if String.eqb model_type "openai" then
    Ok (ChatOpenAI temperature api_key model_name max_tokens)
  else if String.eqb model_type "groq" then
    Ok (ChatGroq api_key model_name temperature max_tokens)
  else Raise (External "ValueError" ("Unsupported model type: " ++ model_type)).

(** ** The HTTP boundary ([main.py]) *)

(** what a handler body can raise: an exception of the backend, or the
    [HTTPException] it raises itself *)
Inductive raised : Type :=
| PyExn (e : exn)
| HTTPException (status_code : nat) (detail : string).

Inductive outcome (A : Type) : Type :=
| Returned (a : A)
| Raised (r : raised).

Arguments Returned {A} a.
Arguments Raised {A} r.

(** the JSON values the handlers return *)
#[warnings="-register-all"]
Inductive json : Type :=
| JStr (s : string)
| JObj (fields : list (string * json)).

(** the collaborators of the HTTP layer *)
Class WebCollaborators (float : Type) : Type := {
  (** Python's [str(e)] *)
  exception_str : raised -> string;
  (** the calls made through a configured client *)
  client_invoke : ChatClient float -> ChatModel
}.

(** [s.endswith(suffix)] *)
Fixpoint endswith (s suffix : string) : bool :=
  String.eqb s suffix
  || match s with
     | EmptyString => false
     | String _ s' => endswith s' suffix
     end.

(** the status of the response the framework sends: 200 for a returned
    body, the status of a raised [HTTPException], 500 for any other
    exception *)
Definition status_of {A} (o : outcome A) : nat :=
  match o with
  | Returned _ => 200
  | Raised (HTTPException status_code _) => status_code
  | Raised (PyExn _) => 500
  end.

Module Main.

(** [ChatRequest] *)
Record ChatRequest (float : Type) : Type := mkChatRequest {
  query : string;
  api_key : string;
  model_type : string;
  model_name : string;
  temperature : float;
  max_tokens : Z;
  session_id : string
}.

Arguments mkChatRequest {float}.
Arguments query {float}.
Arguments api_key {float}.
Arguments model_type {float}.
Arguments model_name {float}.
Arguments temperature {float}.
Arguments max_tokens {float}.
Arguments session_id {float}.

Section Handlers.
Context {float : Type} {W : WebCollaborators float} {E : Collaborators}.

(** [except Exception as e: raise HTTPException(status_code=500,
    detail=str(e))], the handler of every endpoint *)
Definition except_500 {A} (o : outcome A) : outcome A :=
  match o with
  | Returned a => Returned a
  | Raised r => Raised (HTTPException 500 (exception_str r))
  end.

(** [POST /upload]; [pdf_id] and [tmp_path] are the values drawn inside
    [process_pdf] *)
Definition upload_file (filename : string) (file_content : list byte)
    (pdf_id tmp_path : string) (st : PDFManager)
    : outcome json * PDFManager :=
  let body :=
    if negb (endswith filename ".pdf") then
      (Raised (HTTPException 400 "Only PDF files are allowed"), st)
    else
      match process_pdf pdf_id tmp_path file_content filename st with
      | (Ok pdf_id, st') =>
          (Returned (JObj [("message", JStr "PDF processed successfully");
                           ("pdf_id", JStr pdf_id);
                           ("pdf_name", JStr filename)]),
           st')
      | (Raise e, st') => (Raised (PyExn e), st')
      end in
  (except_500 (fst body), snd body).

(** [GET /pdfs] *)
Definition list_pdfs (st : PDFManager) : outcome json :=
  except_500
    (Returned
       (JObj [("pdfs",
               JObj (map (fun kv => (fst kv, JStr (snd kv)))
                         (list_pdfs st)))])).

(** [DELETE /pdfs/{pdf_id}] *)
Definition delete_pdf (pdf_id : string) (st : PDFManager)
    : outcome json * PDFManager :=
  let body :=
    match remove_pdf pdf_id st with
    | (Ok true, st') =>
        (Returned
           (JObj [("message",
                   JStr ("PDF with ID " ++ pdf_id
                         ++ " removed successfully"))]),
         st')
    | (Ok false, st') =>
        (Raised (HTTPException 404
                   ("PDF with ID " ++ pdf_id ++ " not found")),
         st')
    | (Raise e, st') => (Raised (PyExn e), st')
    end in
  (except_500 (fst body), snd body).

(** [POST /chat]; the second component is the list of prompts sent to the
    model *)
Definition chat (request : ChatRequest float) (st : PDFManager)
    : outcome json * list string :=
  let body :=
    match get_llm (model_type request) (model_name request)
                  (api_key request) (temperature request)
                  (max_tokens request) with
    | Raise e => (Raised (PyExn e), [])
    | Ok llm =>
        match get_response (client_invoke llm) (query request) st with
        | (Ok response, prompts) =>
            (Returned (JObj [("response", JStr response)]), prompts)
        | (Raise e, prompts) => (Raised (PyExn e), prompts)
        end
    end in
  (except_500 (fst body), snd body).
End Handlers.
End Main.

(** ** A reference implementation of the collaborators

    A toy decoder (a file is the byte [%] followed by the page texts,
    separated by form feeds), a fixed-stride splitter, an index construction
    that raises [IndexError] on an empty list of documents, as
    [FAISS.from_documents] does, and the difference of lengths as distance. *)

Module Reference.

Definition form_feed : byte := x0c.

Fixpoint split_pages (cur : string) (bs : list byte) : list string :=
  match bs with
  | [] => [cur]
  | b :: bs' =>
      if Byte.eqb b form_feed then cur :: split_pages "" bs'
      else split_pages (cur ++ String (ascii_of_byte b) "") bs'
  end.

Definition decode (file_content : list byte) : result (list string) :=
  match file_content with
  | x25 :: rest => Ok (split_pages "" rest)
  | _ => Raise (External "PdfReadError" "EOF marker not found")
  end.

Fixpoint chunks (fuel size stride : nat) (s : string) : list string :=
  match fuel with
  | 0 => []
  | S fuel' =>
      if Nat.eqb (String.length s) 0 then []
      else if Nat.leb (String.length s) size then [s]
      else substring 0 size s
             :: chunks fuel' size stride
                  (substring stride (String.length s - stride) s)
  end.

Definition splitter (chunk_size chunk_overlap : nat) (s : string)
    : list string :=
  chunks (String.length s) chunk_size (chunk_size - chunk_overlap) s.

Definition index_failure (docs : list Document) : option exn :=
  match docs with
  | [] => Some (IndexError "list index out of range")
  | _ => None
  end.

Definition length_distance (query : string) (d : Document) : nat :=
  (String.length query - String.length (page_content d))
  + (String.length (page_content d) - String.length query).

Definition show_documents (docs : list Document) : string :=
  String.concat "; " (map page_content docs).

#[export] Instance env : Collaborators := {|
  decode_pages := decode;
  split_text := splitter;
  index_error := index_failure;
  distance := length_distance;
  repr_documents := show_documents
|}.

Definition bytes_of (s : string) : list byte := list_byte_of_string s.

(** a one-page document and a two-page document *)
Definition file_a : list byte := bytes_of "%alpha".
Definition file_b : list byte :=
  bytes_of "%beta one" ++ [form_feed] ++ bytes_of "beta two".
(** a document whose only page has no extractable text *)
Definition file_blank : list byte := bytes_of "%".
(** bytes that are not a PDF *)
Definition file_corrupt : list byte := bytes_of "not a pdf".

(** a chat model with a fixed reply, and one whose call fails *)
Definition echo : ChatModel :=
  fun prompt => Ok (mkAIMessage "alpha is in a.pdf").
Definition unreachable : ChatModel :=
  fun prompt => Raise (External "APIConnectionError" "Connection error.").

Definition upload_a : op := Upload "id-a" "/tmp/tmp1.pdf" file_a "a.pdf".
Definition upload_b : op := Upload "id-b" "/tmp/tmp2.pdf" file_b "b.pdf".
Definition upload_blank : op :=
  Upload "id-0" "/tmp/tmp0.pdf" file_blank "blank.pdf".

(** a stamped segment *)
Definition segment (text file_name : string) (page : nat) (pdf_id : string)
    : Document :=
  mkDocument text
    [("source", MStr file_name); ("page", MInt page); ("pdf_id", MStr pdf_id)].

End Reference.

(** The HTTP layer on the reference collaborators: [str] of an exception is
    its message, of an [HTTPException] its status and detail; an OpenAI
    client replies with a fixed text and a Groq client cannot be reached. *)

Module ReferenceWeb.

Definition show_exception (r : raised) : string :=
  match r with
  | PyExn (KeyError k) => "'" ++ k ++ "'"
  | PyExn (IndexError msg) => msg
  | PyExn (External _ msg) => msg
  | HTTPException status_code detail =>
      NilEmpty.string_of_uint (Nat.to_uint status_code) ++ ": " ++ detail
  end.

Definition scripted (client : ChatClient nat) : ChatModel :=
  match client with
  | ChatOpenAI _ _ _ _ => Reference.echo
  | ChatGroq _ _ _ _ => Reference.unreachable
  end.

#[export] Instance web : WebCollaborators nat := {|
  exception_str := show_exception;
  client_invoke := scripted
|}.

Definition ask (provider : string) : Main.ChatRequest nat :=
  Main.mkChatRequest "what is alpha?" "sk-test" provider "gpt-4o" 0 2048%Z
    "20250101_120000".

End ReferenceWeb.


(** ** Predicates on registry states *)

(** [vectorstores] and [pdf_names] list the same ids, in the same order *)
Definition names_in_step (st : PDFManager) : Prop :=
  dict_keys (vectorstores st) = dict_keys (pdf_names st).

(** a registry with one index uses it as the merged index *)
Definition single_is_alias (st : PDFManager) : Prop :=
  forall pdf_id vs,
    vectorstores st = [(pdf_id, vs)] -> combined_vectorstore st = Some vs.

(** every id with an index has stored segments *)
Definition indexed_have_segments (st : PDFManager) : Prop :=
  forall pdf_id,
    dict_mem pdf_id (vectorstores st) = true ->
    dict_mem pdf_id (documents st) = true.

(** the request completed: [process_pdf] returned the id, or [remove_pdf]
    returned [True] *)
Definition returned {E : Collaborators} (st : PDFManager) (o : op) : Prop :=
  match o with
  | Upload pdf_id tmp_path file_content file_name =>
      fst (process_pdf pdf_id tmp_path file_content file_name st) = Ok pdf_id
  | Delete pdf_id => fst (remove_pdf pdf_id st) = Ok true
  end.

(** [a] is at most as far from the query as [b] *)
Definition not_farther {E : Collaborators} (query : string)
    (a b : Document) : Prop :=
  distance query a <= distance query b.

(** the registry once [process_pdf] has stored segments, index and name *)
Definition stored (pdf_id file_name : string) (splits : list Document)
    (st : PDFManager) : PDFManager :=
  with_pdf_names (dict_set pdf_id file_name)
    (with_vectorstores (dict_set pdf_id (mkFAISS splits))
       (with_documents (dict_set pdf_id splits) st)).

(** the registry once [remove_pdf] has deleted the entries of [pdf_id] *)
Definition deleted (pdf_id : string) (st : PDFManager) : PDFManager :=
  with_documents (dict_del pdf_id)
    (with_pdf_names (dict_del pdf_id)
       (with_vectorstores (dict_del pdf_id) st)).

(** a segment without its [pdf_id] stamp *)
Definition erase_pdf_id (seg : Document) : Document :=
  mkDocument (page_content seg) (dict_del "pdf_id" (metadata seg)).

Definition map_result {A B} (f : A -> B) (r : result A) : result B :=
  match r with
  | Ok a => Ok (f a)
  | Raise e => Raise e
  end.

(** the request did not raise *)
Definition completes {E : Collaborators} (st : PDFManager) (o : op) : bool :=
  match o with
  | Upload pdf_id tmp_path file_content file_name =>
      match fst (process_pdf pdf_id tmp_path file_content file_name st) with
      | Ok _ => true
      | Raise _ => false
      end
  | Delete pdf_id =>
      match fst (remove_pdf pdf_id st) with
      | Ok _ => true
      | Raise _ => false
      end
  end.

(** no request of the history raised *)
Fixpoint all_complete {E : Collaborators} (st : PDFManager) (ops : list op)
    : bool :=
  match ops with
  | [] => true
  | o :: ops' => completes st o && all_complete (step st o) ops'
  end.

(** the segments stored under an id are those its index was built from *)
Definition segments_match (st : PDFManager) : Prop :=
  documents st
  = map (fun kv => (fst kv, docstore (snd kv))) (vectorstores st).

(** with two or more indices the merged index is the one built from all the
    stored segments *)
Definition rebuilt_when_several {E : Collaborators} (st : PDFManager) : Prop :=
  2 <= length (vectorstores st) ->
  combined_vectorstore st = Some (mkFAISS (all_docs st)).

(** no mapping of the registry lists an id twice *)
Definition unique_keys (st : PDFManager) : Prop :=
  NoDup (dict_keys (vectorstores st))
  /\ NoDup (dict_keys (pdf_names st))
  /\ NoDup (dict_keys (documents st)).

(** an index entry as an entry of [documents] *)
Definition docstore_entry (kv : string * FAISS) : string * list Document :=
  (fst kv, docstore (snd kv)).

(** * Properties *)

(** ** Dictionaries *)

Section DictFacts.
Context {V : Type}.
Implicit Types (d : dict V) (k : string) (v : V).

Lemma dict_get_set_eq k v d : dict_get k (dict_set k v d) = Some v.
Proof.
  induction d as [|[k' v'] d IH]; simpl.
  - now rewrite String.eqb_refl.
  - destruct (String.eqb k' k) eqn:Hk; simpl; rewrite Hk; auto.
Qed.

Lemma dict_get_set_neq k k' v d :
  k <> k' -> dict_get k' (dict_set k v d) = dict_get k' d.
Proof.
  intros Hne. induction d as [|[k0 v0] d IH]; simpl.
  - destruct (String.eqb k k') eqn:Hk; auto.
    apply String.eqb_eq in Hk. contradiction.
  - destruct (String.eqb k0 k) eqn:Hk; simpl.
    + apply String.eqb_eq in Hk. subst k0.
      destruct (String.eqb k k') eqn:Hk'; auto.
      apply String.eqb_eq in Hk'. contradiction.
    + now rewrite IH.
Qed.

Lemma dict_mem_get k d :
  dict_mem k d = match dict_get k d with Some _ => true | None => false end.
Proof.
  induction d as [|[k' v'] d IH]; simpl; auto.
  destruct (String.eqb k' k); auto.
Qed.

Lemma dict_get_del_eq k d : dict_get k (dict_del k d) = None.
Proof.
  induction d as [|[k' v'] d IH]; simpl; auto.
  destruct (String.eqb k' k) eqn:Hk; simpl; auto.
  now rewrite Hk.
Qed.

Lemma dict_get_del_neq k k' d :
  k <> k' -> dict_get k' (dict_del k d) = dict_get k' d.
Proof.
  intros Hne. induction d as [|[k0 v0] d IH]; simpl; auto.
  destruct (String.eqb k0 k) eqn:Hk; simpl.
  - apply String.eqb_eq in Hk. subst k0.
    destruct (String.eqb k k') eqn:Hk'; auto.
    apply String.eqb_eq in Hk'. contradiction.
  - now rewrite IH.
Qed.

Lemma dict_mem_keys k d :
  dict_mem k d = existsb (fun x => String.eqb x k) (dict_keys d).
Proof.
  induction d as [|[k' v'] d IH]; simpl; auto.
  destruct (String.eqb k' k); auto.
Qed.

Lemma dict_keys_set k v d :
  dict_keys (dict_set k v d)
  = if dict_mem k d then dict_keys d else dict_keys d ++ [k].
Proof.
  induction d as [|[k' v'] d IH]; simpl; auto.
  destruct (String.eqb k' k) eqn:Hk; simpl; auto.
  rewrite IH. now destruct (dict_mem k d).
Qed.

Lemma dict_keys_del k d :
  dict_keys (dict_del k d)
  = filter (fun x => negb (String.eqb x k)) (dict_keys d).
Proof.
  induction d as [|[k' v'] d IH]; simpl; auto.
  destruct (String.eqb k' k); simpl; now rewrite IH.
Qed.

Lemma dict_del_set_same k v d : dict_del k (dict_set k v d) = dict_del k d.
Proof.
  induction d as [|[k' v'] d IH]; simpl.
  - now rewrite String.eqb_refl.
  - destruct (String.eqb k' k) eqn:Hk; simpl; rewrite Hk; simpl; auto.
    now rewrite IH.
Qed.

Lemma dict_mem_set_same k v d : dict_mem k (dict_set k v d) = true.
Proof. now rewrite dict_mem_get, dict_get_set_eq. Qed.

Lemma dict_mem_set_other k k' v d :
  dict_mem k' d = true -> dict_mem k' (dict_set k v d) = true.
Proof.
  intros H. destruct (String.eqb k k') eqn:Hk.
  - apply String.eqb_eq in Hk. subst. apply dict_mem_set_same.
  - apply String.eqb_neq in Hk.
    rewrite dict_mem_get, dict_get_set_neq, <- dict_mem_get; auto.
Qed.

Lemma dict_mem_del k k' d :
  dict_mem k' (dict_del k d) = true -> dict_mem k' d = true /\ k <> k'.
Proof.
  intros H. destruct (String.eqb k k') eqn:Hk.
  - apply String.eqb_eq in Hk. subst.
    rewrite dict_mem_get, dict_get_del_eq in H. discriminate.
  - apply String.eqb_neq in Hk. split; auto.
    rewrite dict_mem_get, dict_get_del_neq, <- dict_mem_get in H; auto.
Qed.
End DictFacts.

(** ** The operations in closed form *)

Section OperationFacts.
Context {E : Collaborators}.

Lemma all_docs_concat st : all_docs st = concat (dict_values (documents st)).
Proof. unfold all_docs, dict_values. apply flat_map_concat_map. Qed.

Lemma update_combined_eq st :
  _update_combined_vectorstore st
  = match vectorstores st with
    | [] => (Ok tt, st)
    | [(_, v)] => (Ok tt, with_combined (Some v) st)
    | _ :: _ :: _ =>
        match FAISS_from_documents (all_docs st) with
        | Ok merged => (Ok tt, with_combined (Some merged) st)
        | Raise e => (Raise e, st)
        end
    end.
Proof.
  unfold _update_combined_vectorstore, bind, gets, modify, lift, ret.
  destruct (vectorstores st) as [|[k v] [|kv2 rest]]; simpl.
  - reflexivity.
  - now rewrite String.eqb_refl.
  - destruct (FAISS_from_documents (all_docs st)); reflexivity.
Qed.

(** the merged-index update touches nothing but the merged index *)
Lemma update_combined_frame st :
  let st' := snd (_update_combined_vectorstore st) in
  vectorstores st' = vectorstores st
  /\ pdf_names st' = pdf_names st
  /\ documents st' = documents st.
Proof.
  intros st'. subst st'. rewrite update_combined_eq.
  destruct (vectorstores st) as [|[k v] [|kv2 rest]] eqn:Hvs; simpl; auto.
  destruct (FAISS_from_documents (all_docs st)); simpl; auto.
Qed.

Lemma process_pdf_eq pdf_id tmp_path file_content file_name st :
  process_pdf pdf_id tmp_path file_content file_name st
  = match process_pdf_splits pdf_id tmp_path file_content file_name with
    | Raise e => (Raise e, st)
    | Ok splits =>
        match index_error splits with
        | Some e => (Raise e, with_documents (dict_set pdf_id splits) st)
        | None =>
            match _update_combined_vectorstore
                    (stored pdf_id file_name splits st) with
            | (Ok _, st') => (Ok pdf_id, st')
            | (Raise e, st') => (Raise e, st')
            end
        end
    end.
Proof.
  unfold process_pdf, bind, lift, modify, ret, FAISS_from_documents, stored.
  destruct (process_pdf_splits pdf_id tmp_path file_content file_name);
    [|reflexivity].
  destruct (index_error a); [reflexivity|].
  match goal with |- context [_update_combined_vectorstore ?s] =>
    destruct (_update_combined_vectorstore s) as [[u|e] st'] end;
    reflexivity.
Qed.

Lemma dict_del_absent {V} k (d : dict V) :
  dict_mem k d = false -> dict_del k d = d.
Proof.
  induction d as [|[k' v'] d IH]; simpl; auto.
  destruct (String.eqb k' k); simpl; [discriminate|].
  intros H. now rewrite IH.
Qed.

Lemma remove_pdf_eq pdf_id st :
  remove_pdf pdf_id st
  = if dict_mem pdf_id (vectorstores st) then
      if dict_mem pdf_id (pdf_names st) then
        match _update_combined_vectorstore (deleted pdf_id st) with
        | (Ok _, st') => (Ok true, st')
        | (Raise e, st') => (Raise e, st')
        end
      else (Raise (KeyError pdf_id), with_vectorstores (dict_del pdf_id) st)
    else (Ok false, st).
Proof.
  cbv beta iota delta [remove_pdf bind gets del_item ret].
  destruct (dict_mem pdf_id (vectorstores st)) eqn:Hv; [|reflexivity].
  cbv beta iota. rewrite Hv. cbv beta iota.
  change (pdf_names (with_vectorstores (dict_del pdf_id) st))
    with (pdf_names st).
  destruct (dict_mem pdf_id (pdf_names st)) eqn:Hn; [|reflexivity].
  cbv beta iota.
  change (documents (with_pdf_names (dict_del pdf_id)
                       (with_vectorstores (dict_del pdf_id) st)))
    with (documents st).
  destruct (dict_mem pdf_id (documents st)) eqn:Hd; cbv beta iota.
  - change (documents (with_pdf_names (dict_del pdf_id)
                         (with_vectorstores (dict_del pdf_id) st)))
      with (documents st).
    rewrite Hd. reflexivity.
  - replace (deleted pdf_id st)
      with (with_pdf_names (dict_del pdf_id)
              (with_vectorstores (dict_del pdf_id) st)).
    + reflexivity.
    + unfold deleted, with_documents. simpl.
      now rewrite (dict_del_absent pdf_id (documents st) Hd).
Qed.
End OperationFacts.

(** ** Invariants of every history *)

Section Invariants.
Context {E : Collaborators}.

Lemma snd_after_update {A} (a : A) s :
  snd (match _update_combined_vectorstore s with
       | (Ok _, st') => (Ok a, st')
       | (Raise e, st') => (Raise e, st')
       end)
  = snd (_update_combined_vectorstore s).
Proof. destruct (_update_combined_vectorstore s) as [[u|e] st']; reflexivity. Qed.

Lemma names_in_step_mem st pdf_id :
  names_in_step st ->
  dict_mem pdf_id (pdf_names st) = dict_mem pdf_id (vectorstores st).
Proof. intros H. rewrite !dict_mem_keys. now rewrite H. Qed.

Lemma update_names_in_step s :
  names_in_step s -> names_in_step (snd (_update_combined_vectorstore s)).
Proof.
  unfold names_in_step. intros H.
  destruct (update_combined_frame s) as (Hv & Hn & _). now rewrite Hv, Hn.
Qed.

Lemma update_single_is_alias s :
  single_is_alias (snd (_update_combined_vectorstore s)).
Proof.
  unfold single_is_alias. intros pdf_id vs.
  destruct (update_combined_frame s) as (Hv & _ & _). rewrite Hv.
  rewrite update_combined_eq. intros Hs. rewrite Hs. reflexivity.
Qed.

Lemma step_names_in_step st o :
  names_in_step st -> names_in_step (step st o).
Proof.
  intros H. destruct o as [pdf_id tmp_path file_content file_name|pdf_id];
    simpl.
  - rewrite process_pdf_eq.
    destruct (process_pdf_splits pdf_id tmp_path file_content file_name)
      as [splits|e]; [|exact H].
    destruct (index_error splits); [exact H|].
    rewrite snd_after_update. apply update_names_in_step.
    unfold names_in_step, stored in *. simpl.
    rewrite !dict_keys_set, H.
    rewrite (dict_mem_keys pdf_id (vectorstores st)), H, <- dict_mem_keys.
    reflexivity.
  - rewrite remove_pdf_eq. rewrite (names_in_step_mem st pdf_id H).
    destruct (dict_mem pdf_id (vectorstores st)); [|exact H].
    rewrite snd_after_update. apply update_names_in_step.
    unfold names_in_step, deleted in *. simpl.
    now rewrite !dict_keys_del, H.
Qed.

Lemma step_single_is_alias st o :
  names_in_step st -> single_is_alias st -> single_is_alias (step st o).
Proof.
  intros Hn H. destruct o as [pdf_id tmp_path file_content file_name|pdf_id];
    simpl.
  - rewrite process_pdf_eq.
    destruct (process_pdf_splits pdf_id tmp_path file_content file_name)
      as [splits|e]; [|exact H].
    destruct (index_error splits); [exact H|].
    rewrite snd_after_update. apply update_single_is_alias.
  - rewrite remove_pdf_eq. rewrite (names_in_step_mem st pdf_id Hn).
    destruct (dict_mem pdf_id (vectorstores st)); [|exact H].
    rewrite snd_after_update. apply update_single_is_alias.
Qed.

Lemma dict_mem_del_other {V} k k' (d : dict V) :
  k <> k' -> dict_mem k' d = true -> dict_mem k' (dict_del k d) = true.
Proof.
  intros Hne H. now rewrite dict_mem_get, dict_get_del_neq, <- dict_mem_get.
Qed.

Lemma step_indexed_have_segments st o :
  indexed_have_segments st -> indexed_have_segments (step st o).
Proof.
  intros H. destruct o as [pdf_id tmp_path file_content file_name|pdf_id];
    simpl.
  - rewrite process_pdf_eq.
    destruct (process_pdf_splits pdf_id tmp_path file_content file_name)
      as [splits|e]; [|exact H].
    destruct (index_error splits).
    + intros k Hk. simpl in *. apply dict_mem_set_other. now apply H.
    + rewrite snd_after_update. intros k.
      destruct (update_combined_frame (stored pdf_id file_name splits st))
        as (Hv & _ & Hd).
      rewrite Hv, Hd. unfold stored. simpl. intros Hk.
      destruct (String.eqb pdf_id k) eqn:Heq.
      * apply String.eqb_eq in Heq. subst k. apply dict_mem_set_same.
      * apply String.eqb_neq in Heq. apply dict_mem_set_other. apply H.
        rewrite dict_mem_get, dict_get_set_neq in Hk by assumption.
        now rewrite dict_mem_get.
  - rewrite remove_pdf_eq.
    destruct (dict_mem pdf_id (vectorstores st)) eqn:Hv; [|exact H].
    destruct (dict_mem pdf_id (pdf_names st)).
    + rewrite snd_after_update. intros k.
      destruct (update_combined_frame (deleted pdf_id st)) as (Hv' & _ & Hd).
      rewrite Hv', Hd. unfold deleted. simpl. intros Hk.
      apply dict_mem_del in Hk. destruct Hk as [Hk Hne].
      apply dict_mem_del_other; auto.
    + intros k. simpl. intros Hk.
      apply dict_mem_del in Hk. destruct Hk as [Hk Hne]. now apply H.
Qed.

Lemma fold_step_invariant (P : PDFManager -> Prop) :
  (forall st o, P st -> P (step st o)) ->
  forall ops st, P st -> P (fold_left step ops st).
Proof.
  intros Hstep ops. induction ops as [|o ops IH]; simpl; auto.
Qed.

Lemma run_names_in_step ops : names_in_step (run ops).
Proof.
  unfold run. apply (fold_step_invariant names_in_step);
    [apply step_names_in_step|reflexivity].
Qed.

Lemma run_single_is_alias ops : single_is_alias (run ops).
Proof.
  assert (H : names_in_step (run ops) /\ single_is_alias (run ops)).
  { unfold run.
    apply (fold_step_invariant
             (fun st => names_in_step st /\ single_is_alias st)).
    - intros st o [Hn Hs]. split.
      + now apply step_names_in_step.
      + now apply step_single_is_alias.
    - split; [reflexivity|]. intros pdf_id vs Hs. discriminate. }
  apply H.
Qed.

Lemma run_indexed_have_segments ops : indexed_have_segments (run ops).
Proof.
  unfold run. apply (fold_step_invariant indexed_have_segments);
    [apply step_indexed_have_segments|].
  intros k Hk. discriminate.
Qed.
End Invariants.

(** ** The merged index *)

Section MergedIndex.
Context {E : Collaborators}.

Lemma single_key_dict {V} (d : dict V) k :
  dict_keys d = [k] -> exists v, d = [(k, v)].
Proof.
  destruct d as [|[k' v] [|kv d]]; simpl; try discriminate.
  intros H. injection H as ->. now exists v.
Qed.

(** C3: in the registry reached by any history of uploads and deletions, if
    exactly one document is registered then the merged index is that
    document's own index, so a top-k query against the merged index returns
    the ranking of the same query against the per-document index. *)
Theorem single_document_aliasing :
  forall (ops : list op) (pdf_id : string),
    dict_keys (list_pdfs (run ops)) = [pdf_id] ->
    exists index,
      vectorstores (run ops) = [(pdf_id, index)]
      /\ get_combined_vectorstore (run ops) = Some index
      /\ forall merged query k,
           get_combined_vectorstore (run ops) = Some merged ->
           similarity_search merged query k
           = similarity_search index query k.
Proof.
  intros ops pdf_id Hk. unfold list_pdfs in Hk.
  rewrite <- (run_names_in_step ops) in Hk.
  destruct (single_key_dict _ _ Hk) as [index Hv].
  exists index. split; [exact Hv|].
  assert (Hc : get_combined_vectorstore (run ops) = Some index)
    by (apply (run_single_is_alias ops pdf_id index Hv)).
  split; [exact Hc|].
  intros merged query k Hm. rewrite Hc in Hm. now injection Hm as <-.
Qed.

Lemma update_rebuild s st' :
  _update_combined_vectorstore s = (Ok tt, st') ->
  2 <= length (vectorstores s) ->
  exists merged,
    FAISS_from_documents (all_docs s) = Ok merged
    /\ st' = with_combined (Some merged) s.
Proof.
  rewrite update_combined_eq.
  destruct (vectorstores s) as [|[k v] [|kv2 rest]]; simpl; try lia.
  intros H _. destruct (FAISS_from_documents (all_docs s)) as [merged|e].
  - exists merged. split; auto. now injection H as <-.
  - discriminate.
Qed.

Lemma returned_update st o :
  returned st o ->
  exists s, _update_combined_vectorstore s = (Ok tt, step st o).
Proof.
  destruct o as [pdf_id tmp_path file_content file_name|pdf_id];
    unfold returned, step.
  - rewrite process_pdf_eq.
    destruct (process_pdf_splits pdf_id tmp_path file_content file_name)
      as [splits|e]; simpl; [|discriminate].
    destruct (index_error splits); simpl; [discriminate|].
    destruct (_update_combined_vectorstore (stored pdf_id file_name splits st))
      as [[[]|e] st'] eqn:Hu; simpl; [|discriminate].
    intros _. now exists (stored pdf_id file_name splits st).
  - rewrite remove_pdf_eq.
    destruct (dict_mem pdf_id (vectorstores st)); simpl; [|discriminate].
    destruct (dict_mem pdf_id (pdf_names st)); simpl; [|discriminate].
    destruct (_update_combined_vectorstore (deleted pdf_id st))
      as [[[]|e] st'] eqn:Hu; simpl; [|discriminate].
    intros _. now exists (deleted pdf_id st).
Qed.

(** C4: after an upload or a deletion that completed on any registry, if two
    or more documents are registered then the merged index is the index built
    from the concatenation of the stored segments of the [documents] mapping,
    in its order; the per-document indices play no part, as rebuilding with
    any other two or more indices gives the same merged index. *)
Theorem merged_index_rebuilt_from_segments :
  forall (st : PDFManager) (o : op),
    returned st o ->
    2 <= length (vectorstores (step st o)) ->
    exists merged,
      FAISS_from_documents (concat (dict_values (documents (step st o))))
      = Ok merged
      /\ combined_vectorstore (step st o) = Some merged
      /\ forall indices,
           2 <= length indices ->
           _update_combined_vectorstore
             (with_vectorstores (fun _ => indices) (step st o))
           = (Ok tt, with_vectorstores (fun _ => indices) (step st o)).
Proof.
  intros st o Hret Hlen.
  destruct (returned_update st o Hret) as [s Hu].
  assert (Hlen' : 2 <= length (vectorstores s)).
  { destruct (update_combined_frame s) as (Hv & _ & _).
    rewrite Hu in Hv. simpl in Hv. now rewrite <- Hv. }
  destruct (update_rebuild s _ Hu Hlen') as (merged & Hm & Hst).
  exists merged. rewrite Hst. simpl.
  rewrite <- (all_docs_concat s). split; [exact Hm|]. split; [reflexivity|].
  intros indices Hi. rewrite update_combined_eq. simpl.
  destruct indices as [|[k v] [|kv2 rest]]; simpl in Hi; try lia.
  change (all_docs (with_vectorstores (fun _ => (k, v) :: kv2 :: rest)
                      (with_combined (Some merged) s)))
    with (all_docs s).
  rewrite Hm. reflexivity.
Qed.

(** C5: on every registry, [remove_pdf] of an id without an index returns
    [False] and leaves the whole registry as it was; for a registered id it
    deletes the document's index, name and segments and keeps the other
    entries, and returns [True], unless the rebuild of the merged index over
    the remaining documents raises, which it propagates. *)
Theorem remove_pdf_unknown_and_known :
  forall (st : PDFManager) (pdf_id : string),
    (dict_mem pdf_id (vectorstores st) = false ->
     remove_pdf pdf_id st = (Ok false, st))
    /\ (dict_mem pdf_id (vectorstores st) = true ->
        dict_mem pdf_id (pdf_names st) = true ->
        let r := fst (remove_pdf pdf_id st) in
        let st' := snd (remove_pdf pdf_id st) in
        (dict_get pdf_id (vectorstores st') = None
         /\ dict_get pdf_id (documents st') = None
         /\ dict_get pdf_id (pdf_names st') = None)
        /\ (forall k, k <> pdf_id ->
              dict_get k (vectorstores st') = dict_get k (vectorstores st)
              /\ dict_get k (documents st') = dict_get k (documents st)
              /\ dict_get k (pdf_names st') = dict_get k (pdf_names st))
        /\ (r = Ok true
            \/ exists e, r = Raise e
                 /\ FAISS_from_documents (all_docs st') = Raise e
                 /\ 2 <= length (vectorstores st'))
        /\ (index_error (all_docs (deleted pdf_id st)) = None -> r = Ok true)).
Proof.
  intros st pdf_id. split.
  - intros Hv. rewrite remove_pdf_eq, Hv. reflexivity.
  - intros Hv Hn r st'. subst r st'. rewrite remove_pdf_eq, Hv, Hn.
    rewrite snd_after_update.
    destruct (update_combined_frame (deleted pdf_id st)) as (Hfv & Hfn & Hfd).
    rewrite Hfv, Hfn, Hfd.
    split; [|split; [|split]].
    + unfold deleted. simpl. now rewrite !dict_get_del_eq.
    + intros k Hk. unfold deleted. simpl.
      rewrite !dict_get_del_neq by (intros Heq; apply Hk; now symmetry).
      auto.
    + rewrite update_combined_eq.
      destruct (vectorstores (deleted pdf_id st)) as [|[k v] [|kv2 rest]];
        simpl; auto.
      destruct (FAISS_from_documents (all_docs (deleted pdf_id st)))
        as [merged|e] eqn:Hf; simpl; auto.
      right. exists e. split; [reflexivity|]. split; [exact Hf|lia].
    + intros Hok. rewrite update_combined_eq.
      destruct (vectorstores (deleted pdf_id st)) as [|[k v] [|kv2 rest]];
        simpl; auto.
      unfold FAISS_from_documents. now rewrite Hok.
Qed.
End MergedIndex.

(** ** Chunking *)

Section Chunking.
Context {E : Collaborators}.

Lemma split_documents_contents chunk_size chunk_overlap pages :
  map page_content (split_documents chunk_size chunk_overlap pages)
  = flat_map (split_text chunk_size chunk_overlap) (map page_content pages).
Proof.
  unfold split_documents. induction pages as [|page pages IH]; simpl; auto.
  rewrite map_app, IH, map_map. simpl. now rewrite map_id.
Qed.

Lemma split_documents_metadata chunk_size chunk_overlap pages seg :
  In seg (split_documents chunk_size chunk_overlap pages) ->
  exists page,
    In page pages
    /\ metadata seg = metadata page
    /\ In (page_content seg)
          (split_text chunk_size chunk_overlap (page_content page)).
Proof.
  unfold split_documents. rewrite in_flat_map.
  intros (page & Hin & Hseg). apply in_map_iff in Hseg.
  destruct Hseg as (chunk & <- & Hchunk). exists page. auto.
Qed.

Lemma split_documents_erase chunk_size chunk_overlap pages :
  map erase_pdf_id (split_documents chunk_size chunk_overlap pages)
  = split_documents chunk_size chunk_overlap (map erase_pdf_id pages).
Proof.
  unfold split_documents. induction pages as [|page pages IH]; simpl; auto.
  now rewrite map_app, IH, map_map.
Qed.

(** the stamped pages do not depend on the temporary file's name *)
Lemma stamp_pages_from file_name pdf_id tmp_path tmp_path' texts :
  forall i,
    map (stamp file_name pdf_id) (pages_from tmp_path i texts)
    = map (stamp file_name pdf_id) (pages_from tmp_path' i texts).
Proof.
  induction texts as [|t texts IH]; intros i; simpl; auto.
  now rewrite IH.
Qed.

Lemma erase_stamp file_name pdf_id pdf_id' page :
  erase_pdf_id (stamp file_name pdf_id page)
  = erase_pdf_id (stamp file_name pdf_id' page).
Proof.
  unfold erase_pdf_id, stamp. simpl. now rewrite !dict_del_set_same.
Qed.

Lemma erase_stamp_pages_from
    file_name pdf_id pdf_id' tmp_path tmp_path' texts :
  forall i,
    map erase_pdf_id
      (map (stamp file_name pdf_id) (pages_from tmp_path i texts))
    = map erase_pdf_id
        (map (stamp file_name pdf_id') (pages_from tmp_path' i texts)).
Proof.
  induction texts as [|t texts IH]; intros i; simpl; auto.
  now rewrite IH.
Qed.

Lemma stamped_contents file_name pdf_id tmp_path texts :
  forall i,
    map page_content
      (map (stamp file_name pdf_id) (pages_from tmp_path i texts))
    = texts.
Proof.
  induction texts as [|t texts IH]; intros i; simpl; auto.
  now rewrite IH.
Qed.

Lemma stamp_metadata file_name pdf_id page :
  dict_get "pdf_id" (metadata (stamp file_name pdf_id page))
  = Some (MStr pdf_id)
  /\ dict_get "source" (metadata (stamp file_name pdf_id page))
     = Some (MStr file_name).
Proof.
  unfold stamp. simpl. split.
  - apply dict_get_set_eq.
  - rewrite dict_get_set_neq by discriminate. apply dict_get_set_eq.
Qed.

(** C7, as amended: two ingestions of the same bytes under the same display
    name, whatever ids and temporary files they draw, both fail with the same
    error or produce segments with the same texts, in the same order, and the
    same metadata except for the [pdf_id] entry, which is the id drawn by
    each ingestion; with the same id the segments are identical. *)
Theorem chunking_deterministic_up_to_pdf_id :
  forall (file_content : list byte) (file_name : string)
         (pdf_id1 tmp_path1 pdf_id2 tmp_path2 : string),
    map_result (map erase_pdf_id)
      (process_pdf_splits pdf_id1 tmp_path1 file_content file_name)
    = map_result (map erase_pdf_id)
        (process_pdf_splits pdf_id2 tmp_path2 file_content file_name)
    /\ map_result (map page_content)
         (process_pdf_splits pdf_id1 tmp_path1 file_content file_name)
       = map_result (map page_content)
           (process_pdf_splits pdf_id2 tmp_path2 file_content file_name)
    /\ map_result
         (map (fun seg => dict_get "pdf_id" (metadata seg)))
         (process_pdf_splits pdf_id1 tmp_path1 file_content file_name)
       = map_result
           (map (fun _ => Some (MStr pdf_id1)))
           (process_pdf_splits pdf_id1 tmp_path1 file_content file_name)
    /\ process_pdf_splits pdf_id1 tmp_path1 file_content file_name
       = process_pdf_splits pdf_id1 tmp_path2 file_content file_name.
Proof.
  intros file_content file_name pdf_id1 tmp_path1 pdf_id2 tmp_path2.
  unfold process_pdf_splits, PyPDFLoader_load.
  destruct (decode_pages file_content) as [texts|e]; simpl; auto.
  split; [|split; [|split]].
  - f_equal. rewrite !split_documents_erase.
    now rewrite (erase_stamp_pages_from _ pdf_id1 pdf_id2 tmp_path1 tmp_path2).
  - f_equal. rewrite !split_documents_contents.
    now rewrite !stamped_contents.
  - f_equal. apply map_ext_in. intros seg Hseg.
    apply split_documents_metadata in Hseg.
    destruct Hseg as (page & Hpage & Hmeta & _). rewrite Hmeta.
    apply in_map_iff in Hpage. destruct Hpage as (p0 & <- & _).
    apply stamp_metadata.
  - now rewrite (stamp_pages_from _ _ tmp_path1 tmp_path2).
Qed.

(** C8: when [process_pdf] returns, it returns the generated id, and the
    segments stored under that id are the chunks of the decoded page texts,
    page after page, cut with chunk size 1000 and overlap 200, every one
    carrying the generated id as [pdf_id] and the display name as [source];
    the per-document index is built from these segments and the name is
    registered. *)
Theorem process_pdf_stores_stamped_chunks :
  forall (st st' : PDFManager) (pdf_id tmp_path : string)
         (file_content : list byte) (file_name : string) (r : string),
    process_pdf pdf_id tmp_path file_content file_name st = (Ok r, st') ->
    r = pdf_id
    /\ exists texts splits,
         decode_pages file_content = Ok texts
         /\ dict_get pdf_id (documents st') = Some splits
         /\ map page_content splits = flat_map (split_text 1000 200) texts
         /\ Forall (fun seg =>
                      dict_get "pdf_id" (metadata seg) = Some (MStr pdf_id)
                      /\ dict_get "source" (metadata seg)
                         = Some (MStr file_name))
                   splits
         /\ dict_get pdf_id (vectorstores st') = Some (mkFAISS splits)
         /\ dict_get pdf_id (pdf_names st') = Some file_name.
Proof.
  intros st st' pdf_id tmp_path file_content file_name r.
  rewrite process_pdf_eq.
  destruct (process_pdf_splits pdf_id tmp_path file_content file_name)
    as [splits|e] eqn:Hs; [|discriminate].
  destruct (index_error splits); [discriminate|].
  destruct (update_combined_frame (stored pdf_id file_name splits st))
    as (Hv & Hn & Hd).
  destruct (_update_combined_vectorstore (stored pdf_id file_name splits st))
    as [[u|e] s'] eqn:Hu; [|discriminate].
  intros H. injection H as <- <-. split; [reflexivity|].
  simpl in Hv, Hn, Hd.
  unfold process_pdf_splits, PyPDFLoader_load in Hs.
  destruct (decode_pages file_content) as [texts|e]; [|discriminate].
  injection Hs as <-. exists texts. eexists. split; [reflexivity|].
  rewrite Hv, Hn, Hd. unfold stored. simpl.
  split; [apply dict_get_set_eq|].
  split; [now rewrite split_documents_contents, stamped_contents|].
  split; [|split; apply dict_get_set_eq].
  apply Forall_forall. intros seg Hseg.
  apply split_documents_metadata in Hseg.
  destruct Hseg as (page & Hpage & Hmeta & _). rewrite Hmeta.
  apply in_map_iff in Hpage. destruct Hpage as (p0 & <- & _).
  apply stamp_metadata.
Qed.
End Chunking.

(** ** Retrieval and answering *)

Section AnsweringFacts.
Context {E : Collaborators}.

Lemma insert_by_distance_perm query d l :
  Permutation (insert_by_distance query d l) (d :: l).
Proof.
  induction l as [|x l IH]; simpl; auto.
  destruct (Nat.leb (distance query d) (distance query x)); auto.
  rewrite IH. apply perm_swap.
Qed.

Lemma sort_by_distance_perm query l :
  Permutation (sort_by_distance query l) l.
Proof.
  induction l as [|d l IH]; simpl; auto.
  rewrite insert_by_distance_perm. now constructor.
Qed.

Lemma insert_by_distance_sorted query d l :
  StronglySorted (not_farther query) l ->
  StronglySorted (not_farther query) (insert_by_distance query d l).
Proof.
  induction 1 as [|x l Hs IH Hx]; simpl.
  - repeat constructor.
  - destruct (Nat.leb (distance query d) (distance query x)) eqn:Hle.
    + apply Nat.leb_le in Hle. constructor.
      * now constructor.
      * constructor; [exact Hle|].
        eapply Forall_impl; [|exact Hx].
        unfold not_farther. intros y Hy. lia.
    + apply Nat.leb_gt in Hle. constructor; [exact IH|].
      apply (Permutation_Forall
               (Permutation_sym (insert_by_distance_perm query d l))).
      constructor; [unfold not_farther; lia|exact Hx].
Qed.

Lemma sort_by_distance_sorted query l :
  StronglySorted (not_farther query) (sort_by_distance query l).
Proof.
  induction l as [|d l IH]; simpl.
  - constructor.
  - now apply insert_by_distance_sorted.
Qed.

Lemma sorted_prefix_closest query l :
  StronglySorted (not_farther query) l ->
  forall k d d',
    In d (firstn k l) -> In d' (skipn k l) -> not_farther query d d'.
Proof.
  induction 1 as [|x l Hs IH Hx]; intros k d d'.
  - rewrite firstn_nil. contradiction.
  - destruct k as [|k]; simpl; [contradiction|].
    intros [<-|Hd] Hd'.
    + rewrite Forall_forall in Hx. apply Hx.
      rewrite <- (firstn_skipn k l). apply in_or_app. now right.
    + now apply (IH k).
Qed.

(** C9: with a merged index in place, [get_response] ranks the indexed
    segments by distance to the query and keeps the 5 closest (all of them
    when there are fewer), sends one prompt carrying them and the query to the
    chat model, once, and returns the text of the reply unchanged; when the
    call raises, the same exception is the outcome, after that single call. *)
Theorem get_response_with_index :
  forall (llm : ChatModel) (query : string) (st : PDFManager) (index : FAISS),
    get_combined_vectorstore st = Some index ->
    let context := similarity_search index query 5 in
    let prompt := template_format (repr_documents context) query in
    get_response llm query st = (map_result content (llm prompt), [prompt])
    /\ length context = Nat.min 5 (length (docstore index))
    /\ StronglySorted (not_farther query) context
    /\ exists rest,
         Permutation (context ++ rest) (docstore index)
         /\ forall d d',
              In d context -> In d' rest ->
              distance query d <= distance query d'.
Proof.
  intros llm query st index Hidx context prompt.
  split; [|split; [|split]].
  - unfold get_response, rag_chain_invoke, retriever. rewrite Hidx.
    fold context. fold prompt. now destruct (llm prompt).
  - unfold context, similarity_search. rewrite length_firstn.
    now rewrite (Permutation_length (sort_by_distance_perm query _)).
  - unfold context, similarity_search.
    pose proof (sort_by_distance_sorted query (docstore index)) as Hs.
    rewrite <- (firstn_skipn 5 (sort_by_distance query (docstore index))) in Hs.
    revert Hs. generalize (firstn 5 (sort_by_distance query (docstore index))).
    generalize (skipn 5 (sort_by_distance query (docstore index))).
    intros tl hd. induction hd as [|x hd IH]; simpl; intros Hs.
    + constructor.
    + apply StronglySorted_inv in Hs. destruct Hs as [Hs Hx].
      constructor; [now apply IH|].
      apply Forall_app in Hx. apply Hx.
  - exists (skipn 5 (sort_by_distance query (docstore index))). split.
    + unfold context, similarity_search. rewrite firstn_skipn.
      apply sort_by_distance_perm.
    + intros d d' Hd Hd'.
      apply (sorted_prefix_closest query _
               (sort_by_distance_sorted query (docstore index)) 5 d d' Hd Hd').
Qed.

Lemma get_response_without_index llm query st :
  get_combined_vectorstore st = None ->
  get_response llm query st = (Ok no_pdfs_message, []).
Proof. unfold get_response. now intros ->. Qed.
End AnsweringFacts.

(** ** Failed ingestions *)

Section IngestionFailures.
Context {E : Collaborators}.

(** a document that cannot be decoded leaves the registry as it was *)
Lemma process_pdf_decode_failure pdf_id tmp_path file_content file_name e st :
  decode_pages file_content = Raise e ->
  process_pdf pdf_id tmp_path file_content file_name st = (Raise e, st).
Proof.
  intros H. rewrite process_pdf_eq. unfold process_pdf_splits, PyPDFLoader_load.
  now rewrite H.
Qed.

(** a failure of the index construction comes after the segments are stored *)
Lemma process_pdf_index_failure
    pdf_id tmp_path file_content file_name splits e st :
  process_pdf_splits pdf_id tmp_path file_content file_name = Ok splits ->
  index_error splits = Some e ->
  process_pdf pdf_id tmp_path file_content file_name st
  = (Raise e, with_documents (dict_set pdf_id splits) st).
Proof. intros Hs He. rewrite process_pdf_eq. now rewrite Hs, He. Qed.

(** removing the only registered document leaves the merged index in place *)
Lemma remove_last_keeps_combined pdf_id index st :
  vectorstores st = [(pdf_id, index)] ->
  dict_mem pdf_id (pdf_names st) = true ->
  fst (remove_pdf pdf_id st) = Ok true
  /\ vectorstores (snd (remove_pdf pdf_id st)) = []
  /\ combined_vectorstore (snd (remove_pdf pdf_id st))
     = combined_vectorstore st.
Proof.
  intros Hv Hn.
  assert (Hm : dict_mem pdf_id (vectorstores st) = true)
    by (rewrite Hv; simpl; now rewrite String.eqb_refl).
  assert (Hd : vectorstores (deleted pdf_id st) = [])
    by (unfold deleted; simpl; rewrite Hv; simpl; now rewrite String.eqb_refl).
  rewrite remove_pdf_eq, Hm, Hn, update_combined_eq, Hd. simpl. auto.
Qed.

(** in every history the ids with an index are those with a name, and all of
    them have stored segments *)
Lemma run_key_sets ops :
  dict_keys (vectorstores (run ops)) = dict_keys (pdf_names (run ops))
  /\ incl (dict_keys (vectorstores (run ops))) (dict_keys (documents (run ops))).
Proof.
  split; [apply run_names_in_step|].
  intros k Hk. pose proof (run_indexed_have_segments ops k) as H.
  rewrite !dict_mem_keys in H.
  assert (Hex : existsb (fun x => String.eqb x k)
                  (dict_keys (vectorstores (run ops))) = true).
  { apply existsb_exists. exists k. split; [exact Hk|apply String.eqb_refl]. }
  apply H in Hex. apply existsb_exists in Hex.
  destruct Hex as (x & Hx & Heq). apply String.eqb_eq in Heq. now subst x.
Qed.
End IngestionFailures.

(** ** Further laws of the registry *)

Section RegistryLaws.
Context {E : Collaborators}.

Lemma NoDup_keys_set {V} k v (d : dict V) :
  NoDup (dict_keys d) -> NoDup (dict_keys (dict_set k v d)).
Proof.
  intros H. rewrite dict_keys_set. destruct (dict_mem k d) eqn:Hm; auto.
  apply NoDup_app; auto.
  - repeat constructor. intros [].
  - intros x Hx [Heq|[]]. subst x. rewrite dict_mem_keys in Hm.
    assert (Ht : existsb (fun y => String.eqb y k) (dict_keys d) = true).
    { apply existsb_exists. exists k. split; auto. apply String.eqb_refl. }
    congruence.
Qed.

Lemma NoDup_keys_del {V} k (d : dict V) :
  NoDup (dict_keys d) -> NoDup (dict_keys (dict_del k d)).
Proof. intros H. rewrite dict_keys_del. now apply NoDup_filter. Qed.

Lemma update_unique_keys s :
  unique_keys s -> unique_keys (snd (_update_combined_vectorstore s)).
Proof.
  unfold unique_keys.
  destruct (update_combined_frame s) as (Hv & Hn & Hd). now rewrite Hv, Hn, Hd.
Qed.

Lemma step_unique_keys st o : unique_keys st -> unique_keys (step st o).
Proof.
  intros (Hv & Hn & Hd).
  destruct o as [pdf_id tmp_path file_content file_name|pdf_id]; simpl.
  - rewrite process_pdf_eq.
    destruct (process_pdf_splits pdf_id tmp_path file_content file_name)
      as [splits|e]; [|now repeat split].
    destruct (index_error splits).
    + repeat split; simpl; auto. now apply NoDup_keys_set.
    + rewrite snd_after_update. apply update_unique_keys.
      repeat split; simpl; now apply NoDup_keys_set.
  - rewrite remove_pdf_eq.
    destruct (dict_mem pdf_id (vectorstores st)); [|now repeat split].
    destruct (dict_mem pdf_id (pdf_names st)).
    + rewrite snd_after_update. apply update_unique_keys.
      repeat split; simpl; now apply NoDup_keys_del.
    + repeat split; simpl; auto. now apply NoDup_keys_del.
Qed.

Lemma registry_keys_are_unique_aux ops :
  NoDup (dict_keys (vectorstores (run ops)))
  /\ NoDup (dict_keys (pdf_names (run ops)))
  /\ NoDup (dict_keys (documents (run ops))).
Proof.
  unfold run. apply (fold_step_invariant unique_keys).
  - apply step_unique_keys.
  - repeat split; constructor.
Qed.


(** X2: [process_pdf], whatever its outcome, leaves the index, the name and
    the segments of every other id as they were. *)
Theorem process_pdf_keeps_other_documents :
  forall (st : PDFManager) (pdf_id tmp_path : string)
         (file_content : list byte) (file_name k : string),
    k <> pdf_id ->
    let st' := snd (process_pdf pdf_id tmp_path file_content file_name st) in
    dict_get k (vectorstores st') = dict_get k (vectorstores st)
    /\ dict_get k (pdf_names st') = dict_get k (pdf_names st)
    /\ dict_get k (documents st') = dict_get k (documents st).
Proof.
  intros st pdf_id tmp_path file_content file_name k Hk st'. subst st'.
  assert (Hk' : pdf_id <> k) by (intros Heq; apply Hk; now symmetry).
  rewrite process_pdf_eq.
  destruct (process_pdf_splits pdf_id tmp_path file_content file_name)
    as [splits|e]; [|auto].
  destruct (index_error splits).
  - simpl. now rewrite dict_get_set_neq.
  - rewrite snd_after_update.
    destruct (update_combined_frame (stored pdf_id file_name splits st))
      as (Hv & Hn & Hd).
    rewrite Hv, Hn, Hd. unfold stored. simpl.
    now rewrite !dict_get_set_neq.
Qed.

(** X3: when [process_pdf] raises [e], one of three things happened: the
    decoder raised [e] and the registry is untouched; the index construction
    raised [e] on the new segments, which are already stored under the id;
    or segments, index and name are stored and the rebuild of the merged
    index over two or more documents raised [e], leaving the old merged
    index. *)
Theorem process_pdf_raise_cases :
  forall (st st' : PDFManager) (pdf_id tmp_path : string)
         (file_content : list byte) (file_name : string) (e : exn),
    process_pdf pdf_id tmp_path file_content file_name st = (Raise e, st') ->
    (decode_pages file_content = Raise e /\ st' = st)
    \/ (exists splits,
          process_pdf_splits pdf_id tmp_path file_content file_name
          = Ok splits
          /\ index_error splits = Some e
          /\ st' = with_documents (dict_set pdf_id splits) st)
    \/ (exists splits,
          process_pdf_splits pdf_id tmp_path file_content file_name
          = Ok splits
          /\ index_error splits = None
          /\ st' = stored pdf_id file_name splits st
          /\ 2 <= length (vectorstores st')
          /\ FAISS_from_documents (all_docs st') = Raise e).
Proof.
  intros st st' pdf_id tmp_path file_content file_name e.
  rewrite process_pdf_eq.
  destruct (process_pdf_splits pdf_id tmp_path file_content file_name)
    as [splits|e0] eqn:Hs.
  - destruct (index_error splits) as [e1|] eqn:Hi.
    + intros H. injection H as <- <-. right. left. now exists splits.
    + rewrite update_combined_eq.
      destruct (vectorstores (stored pdf_id file_name splits st))
        as [|[k v] [|kv2 rest]] eqn:Hv; try discriminate.
      destruct (FAISS_from_documents
                  (all_docs (stored pdf_id file_name splits st)))
        as [merged|e1] eqn:Hf; [discriminate|].
      intros H. injection H as <- <-. right. right. exists splits.
      rewrite Hv. simpl. repeat split; auto. lia.
  - intros H. injection H as <- <-. left. split; [|reflexivity].
    unfold process_pdf_splits, PyPDFLoader_load in Hs.
    destruct (decode_pages file_content); [discriminate|].
    now injection Hs as ->.
Qed.

Lemma remove_pdf_forgets pdf_id st :
  dict_mem pdf_id (vectorstores (snd (remove_pdf pdf_id st))) = false.
Proof.
  rewrite remove_pdf_eq.
  destruct (dict_mem pdf_id (vectorstores st)) eqn:Hv; [|exact Hv].
  destruct (dict_mem pdf_id (pdf_names st)).
  - rewrite snd_after_update.
    destruct (update_combined_frame (deleted pdf_id st)) as (Hfv & _ & _).
    rewrite Hfv. unfold deleted. simpl.
    now rewrite dict_mem_get, dict_get_del_eq.
  - simpl. now rewrite dict_mem_get, dict_get_del_eq.
Qed.

(** X4: on every registry, a second [remove_pdf] of the same id returns
    [False] and changes nothing, whatever the first one did. *)
Theorem remove_pdf_twice :
  forall (st : PDFManager) (pdf_id : string),
    remove_pdf pdf_id (snd (remove_pdf pdf_id st))
    = (Ok false, snd (remove_pdf pdf_id st)).
Proof.
  intros st pdf_id.
  rewrite (remove_pdf_eq pdf_id (snd (remove_pdf pdf_id st))).
  now rewrite remove_pdf_forgets.
Qed.

(** X5: uploading a document under an id that the registry does not hold
    and then removing it restores the three mappings; the removal finds the
    id whether or not the rebuild of the merged index raises. *)
Theorem upload_then_remove_restores :
  forall (st st1 : PDFManager) (pdf_id tmp_path : string)
         (file_content : list byte) (file_name r : string),
    dict_mem pdf_id (vectorstores st) = false ->
    dict_mem pdf_id (pdf_names st) = false ->
    dict_mem pdf_id (documents st) = false ->
    process_pdf pdf_id tmp_path file_content file_name st = (Ok r, st1) ->
    let st2 := snd (remove_pdf pdf_id st1) in
    vectorstores st2 = vectorstores st
    /\ pdf_names st2 = pdf_names st
    /\ documents st2 = documents st.
Proof.
  intros st st1 pdf_id tmp_path file_content file_name r Hv Hn Hd.
  rewrite process_pdf_eq.
  destruct (process_pdf_splits pdf_id tmp_path file_content file_name)
    as [splits|e]; [|discriminate].
  destruct (index_error splits); [discriminate|].
  destruct (update_combined_frame (stored pdf_id file_name splits st))
    as (Hv1 & Hn1 & Hd1).
  destruct (_update_combined_vectorstore (stored pdf_id file_name splits st))
    as [[u|e] s1]; [|discriminate].
  intros H st2. injection H as _ <-. subst st2. simpl in Hv1, Hn1, Hd1.
  rewrite remove_pdf_eq, Hv1, Hn1.
  rewrite !dict_mem_set_same, snd_after_update.
  destruct (update_combined_frame (deleted pdf_id s1)) as (Hv2 & Hn2 & Hd2).
  rewrite Hv2, Hn2, Hd2. unfold deleted. simpl.
  rewrite Hv1, Hn1, Hd1.
  rewrite !dict_del_set_same, !dict_del_absent; auto.
Qed.

(** X6: updating the merged index twice is the same as updating it once. *)
Theorem update_combined_idempotent :
  forall st : PDFManager,
    _update_combined_vectorstore (snd (_update_combined_vectorstore st))
    = _update_combined_vectorstore st.
Proof.
  intros st. rewrite (update_combined_eq st).
  destruct (vectorstores st) as [|[k v] [|kv2 rest]] eqn:Hv; simpl.
  - rewrite update_combined_eq, Hv. reflexivity.
  - rewrite update_combined_eq. simpl. rewrite Hv. reflexivity.
  - destruct (FAISS_from_documents (all_docs st)) as [merged|e] eqn:Hf; simpl.
    + rewrite update_combined_eq. simpl. rewrite Hv.
      change (all_docs (with_combined (Some merged) st)) with (all_docs st).
      rewrite Hf. reflexivity.
    + rewrite update_combined_eq, Hv, Hf. reflexivity.
Qed.

(** X7: in the registry reached by any history, [get_pdf_name] of an id is
    [None] exactly when [remove_pdf] of that id returns [False] and changes
    nothing; and the only exception [remove_pdf] can raise there is the one
    of the index construction during the rebuild of the merged index, never
    the [KeyError] of a missing name. *)
Theorem listed_ids_are_the_removable_ones :
  forall (ops : list op) (pdf_id : string),
    (get_pdf_name pdf_id (run ops) = None
     <-> remove_pdf pdf_id (run ops) = (Ok false, run ops))
    /\ forall e,
         fst (remove_pdf pdf_id (run ops)) = Raise e ->
         FAISS_from_documents (all_docs (deleted pdf_id (run ops)))
         = Raise e.
Proof.
  intros ops pdf_id. pose proof (run_names_in_step ops) as Hn.
  pose proof (names_in_step_mem (run ops) pdf_id Hn) as Hm.
  unfold get_pdf_name. rewrite remove_pdf_eq, <- Hm.
  rewrite (dict_mem_get pdf_id (pdf_names (run ops))).
  destruct (dict_get pdf_id (pdf_names (run ops))) as [name|].
  - split.
    + split; [discriminate|].
      destruct (_update_combined_vectorstore (deleted pdf_id (run ops)))
        as [[u|e] s]; discriminate.
    + intros e. rewrite update_combined_eq.
      destruct (vectorstores (deleted pdf_id (run ops)))
        as [|[k v] [|kv2 rest]]; simpl; try discriminate.
      destruct (FAISS_from_documents (all_docs (deleted pdf_id (run ops))));
        simpl; [discriminate|].
      intros H. now injection H as ->.
  - split; [tauto|]. simpl. discriminate.
Qed.

(** X8: after an upload that returned, the merged index exists, so
    [get_response] no longer answers with the no-documents message: it sends
    one prompt to the model. *)
Theorem completed_upload_reaches_the_model :
  forall (st st' : PDFManager) (pdf_id tmp_path : string)
         (file_content : list byte) (file_name r : string),
    process_pdf pdf_id tmp_path file_content file_name st = (Ok r, st') ->
    get_combined_vectorstore st' <> None
    /\ forall (llm : ChatModel) (query : string),
         length (snd (get_response llm query st')) = 1.
Proof.
  intros st st' pdf_id tmp_path file_content file_name r.
  rewrite process_pdf_eq.
  destruct (process_pdf_splits pdf_id tmp_path file_content file_name)
    as [splits|e]; [|discriminate].
  destruct (index_error splits); [discriminate|].
  rewrite update_combined_eq.
  assert (Hne : vectorstores (stored pdf_id file_name splits st) <> []).
  { unfold stored. simpl. intros Hnil.
    pose proof (dict_mem_set_same pdf_id (mkFAISS splits) (vectorstores st))
      as Hm.
    rewrite Hnil in Hm. discriminate. }
  assert (Hsome : forall c llm query,
            get_combined_vectorstore c <> None ->
            length (snd (get_response llm query c)) = 1).
  { intros c llm query Hc. unfold get_response, rag_chain_invoke.
    destruct (get_combined_vectorstore c); [|contradiction].
    now destruct (llm _). }
  destruct (vectorstores (stored pdf_id file_name splits st))
    as [|[k v] [|kv2 rest]]; [contradiction| |].
  - intros H. injection H as _ <-. split; [discriminate|].
    intros llm query. apply Hsome. discriminate.
  - destruct (FAISS_from_documents
                (all_docs (stored pdf_id file_name splits st)));
      [|discriminate].
    intros H. injection H as _ <-. split; [discriminate|].
    intros llm query. apply Hsome. discriminate.
Qed.
End RegistryLaws.

(** ** Histories in which no request raised *)

Section CompleteHistories.
Context {E : Collaborators}.

Lemma map_entry_set k v (d : dict FAISS) :
  map docstore_entry (dict_set k v d)
  = dict_set k (docstore v) (map docstore_entry d).
Proof.
  induction d as [|[k' v'] d IH]; simpl; auto.
  destruct (String.eqb k' k); simpl; auto. now rewrite IH.
Qed.

Lemma map_entry_del k (d : dict FAISS) :
  map docstore_entry (dict_del k d) = dict_del k (map docstore_entry d).
Proof.
  induction d as [|[k' v'] d IH]; simpl; auto.
  destruct (String.eqb k' k); simpl; auto. now rewrite IH.
Qed.

Lemma update_rebuilt_when_several s :
  fst (_update_combined_vectorstore s) = Ok tt ->
  rebuilt_when_several (snd (_update_combined_vectorstore s)).
Proof.
  unfold rebuilt_when_several. rewrite update_combined_eq.
  destruct (vectorstores s) as [|[k v] [|kv2 rest]] eqn:Hv; simpl;
    rewrite ?Hv; simpl; try lia.
  unfold FAISS_from_documents.
  destruct (index_error (all_docs s)); simpl; [discriminate|].
  intros _ _. reflexivity.
Qed.

Lemma fst_after_update {A} (a : A) s :
  (exists x,
     fst (match _update_combined_vectorstore s with
          | (Ok _, st') => (Ok a, st')
          | (Raise e, st') => (Raise e, st')
          end) = Ok x) ->
  fst (_update_combined_vectorstore s) = Ok tt.
Proof.
  destruct (_update_combined_vectorstore s) as [[[]|e] st']; simpl; auto.
  intros [x Hx]. discriminate.
Qed.

Lemma step_complete_invariants st o :
  completes st o = true ->
  segments_match st /\ rebuilt_when_several st ->
  segments_match (step st o) /\ rebuilt_when_several (step st o).
Proof.
  intros Hc [Hs Hr].
  destruct o as [pdf_id tmp_path file_content file_name|pdf_id];
    unfold completes in Hc; simpl.
  - rewrite process_pdf_eq in *.
    destruct (process_pdf_splits pdf_id tmp_path file_content file_name)
      as [splits|e]; [|discriminate].
    destruct (index_error splits); [discriminate|].
    assert (Hok : fst (_update_combined_vectorstore
                         (stored pdf_id file_name splits st)) = Ok tt).
    { apply (fst_after_update pdf_id).
      destruct (fst (match _update_combined_vectorstore
                             (stored pdf_id file_name splits st) with
                     | (Ok _, st') => (Ok pdf_id, st')
                     | (Raise e, st') => (Raise e, st')
                     end)) as [x|e]; [now exists x|discriminate]. }
    rewrite snd_after_update. split.
    + unfold segments_match.
      destruct (update_combined_frame (stored pdf_id file_name splits st))
        as (Hv & _ & Hd).
      rewrite Hv, Hd. unfold stored. simpl.
      fold docstore_entry. rewrite map_entry_set. simpl.
      unfold segments_match in Hs. fold docstore_entry in Hs. now rewrite Hs.
    + now apply update_rebuilt_when_several.
  - rewrite remove_pdf_eq in *.
    destruct (dict_mem pdf_id (vectorstores st)); [|now split].
    destruct (dict_mem pdf_id (pdf_names st)); [|discriminate].
    assert (Hok : fst (_update_combined_vectorstore (deleted pdf_id st))
                  = Ok tt).
    { apply (fst_after_update true).
      destruct (fst (match _update_combined_vectorstore
                             (deleted pdf_id st) with
                     | (Ok _, st') => (Ok true, st')
                     | (Raise e, st') => (Raise e, st')
                     end)) as [x|e]; [now exists x|discriminate]. }
    rewrite snd_after_update. split.
    + unfold segments_match.
      destruct (update_combined_frame (deleted pdf_id st)) as (Hv & _ & Hd).
      rewrite Hv, Hd. unfold deleted. simpl.
      fold docstore_entry. rewrite map_entry_del.
      unfold segments_match in Hs. fold docstore_entry in Hs. now rewrite Hs.
    + now apply update_rebuilt_when_several.
Qed.

Lemma all_complete_invariants ops :
  forall st,
    all_complete st ops = true ->
    segments_match st /\ rebuilt_when_several st ->
    segments_match (fold_left step ops st)
    /\ rebuilt_when_several (fold_left step ops st).
Proof.
  induction ops as [|o ops IH]; simpl; intros st Hc Hinv; auto.
  apply andb_prop in Hc. destruct Hc as [Ho Hops].
  apply IH; auto. now apply step_complete_invariants.
Qed.

Lemma run_complete_invariants ops :
  all_complete init ops = true ->
  segments_match (run ops) /\ rebuilt_when_several (run ops).
Proof.
  intros Hc. apply all_complete_invariants; auto.
  split; [reflexivity|]. unfold rebuilt_when_several. simpl. lia.
Qed.

Lemma lookup_all_keys {V} (d : dict (list V)) :
  NoDup (dict_keys d) ->
  flat_map (fun k => match dict_get k d with
                     | Some segs => segs
                     | None => []
                     end)
           (dict_keys d)
  = flat_map snd d.
Proof.
  induction d as [|[k v] d IH]; simpl; auto.
  intros Hnd. inversion Hnd as [|? ? Hnotin Hnd']; subst.
  rewrite String.eqb_refl. f_equal. rewrite <- IH by assumption.
  rewrite !flat_map_concat_map. f_equal. apply map_ext_in.
  intros k' Hk'. destruct (String.eqb k k') eqn:Heq; auto.
  apply String.eqb_eq in Heq. subst k'. contradiction.
Qed.

Lemma keys_of_entries (d : dict FAISS) :
  dict_keys (map docstore_entry d) = dict_keys d.
Proof. unfold dict_keys. rewrite map_map. reflexivity. Qed.

Lemma dict_get_entries k (d : dict FAISS) :
  dict_get k (map docstore_entry d) = option_map docstore (dict_get k d).
Proof.
  induction d as [|[k' v] d IH]; simpl; auto.
  destruct (String.eqb k' k); auto.
Qed.

(** X9: in the registry reached by a history in which no request raised,
    the three mappings list the same ids in the same order, and the segments
    stored under an id are those its index holds. *)
Theorem complete_history_mappings_agree :
  forall ops : list op,
    all_complete init ops = true ->
    dict_keys (documents (run ops)) = dict_keys (vectorstores (run ops))
    /\ dict_keys (pdf_names (run ops)) = dict_keys (vectorstores (run ops))
    /\ forall pdf_id,
         dict_get pdf_id (documents (run ops))
         = option_map docstore (dict_get pdf_id (vectorstores (run ops))).
Proof.
  intros ops Hc. destruct (run_complete_invariants ops Hc) as [Hs _].
  unfold segments_match in Hs. fold docstore_entry in Hs.
  split; [now rewrite Hs, keys_of_entries|].
  split; [symmetry; apply run_names_in_step|].
  intros pdf_id. rewrite Hs. apply dict_get_entries.
Qed.

(** X10: in the registry reached by a history in which no request raised,
    as long as a document is registered the merged index holds exactly the
    segments of the registered documents, in registration order. *)
Theorem complete_history_merged_index :
  forall ops : list op,
    all_complete init ops = true ->
    list_pdfs (run ops) <> [] ->
    merged_segments (run ops) = registered_segments (run ops).
Proof.
  intros ops Hc Hne.
  destruct (run_complete_invariants ops Hc) as [Hs Hr].
  destruct (registry_keys_are_unique_aux ops) as (_ & _ & Hnd).
  pose proof (run_names_in_step ops) as Hn.
  pose proof (run_single_is_alias ops) as Ha.
  unfold segments_match in Hs. fold docstore_entry in Hs.
  unfold registered_segments, merged_segments, list_pdfs in *.
  unfold names_in_step in Hn. rewrite <- Hn.
  rewrite <- keys_of_entries, <- Hs.
  rewrite (lookup_all_keys _ Hnd).
  destruct (vectorstores (run ops)) as [|[k v] [|kv2 rest]] eqn:Hv.
  - simpl in Hn. destruct (pdf_names (run ops)); [contradiction|discriminate].
  - rewrite (Ha k v Hv), Hs. simpl. now rewrite app_nil_r.
  - unfold rebuilt_when_several in Hr.
    rewrite Hr by (rewrite Hv; simpl; lia).
    reflexivity.
Qed.
End CompleteHistories.

(** ** Providers and the HTTP boundary *)

Section WebLaws.
Context {float : Type} {W : WebCollaborators float} {E : Collaborators}.


Lemma endswith_refl s : endswith s s = true.
Proof. destruct s; simpl; [reflexivity|]. now rewrite Ascii.eqb_refl, String.eqb_refl. Qed.

Lemma endswith_app prefix suffix : endswith (prefix ++ suffix) suffix = true.
Proof.
  induction prefix as [|a prefix IH]; simpl.
  - apply endswith_refl.
  - rewrite IH. apply orb_true_r.
Qed.

Lemma endswith_iff s suffix :
  endswith s suffix = true <-> exists prefix, s = (prefix ++ suffix)%string.
Proof.
  split.
  - induction s as [|a s IH].
    + cbn [endswith]. rewrite orb_false_r. intros H.
      apply String.eqb_eq in H. exists "". now subst.
    + intros H. cbn [endswith] in H. apply orb_prop in H.
      destruct H as [H|H].
      * apply String.eqb_eq in H. exists "". now rewrite H.
      * destruct (IH H) as [prefix ->]. now exists (String a prefix).
  - intros [prefix ->]. apply endswith_app.
Qed.


(** X13: for a file name that does not end in [.pdf] (the comparison is
    case-sensitive), [upload_file] answers 500 with the text of the 400 it
    raised, and the registry is untouched: [process_pdf] is not run. *)
Theorem upload_rejects_other_names :
  forall (filename : string) (file_content : list byte)
         (pdf_id tmp_path : string) (st : PDFManager),
    (forall prefix, filename <> (prefix ++ ".pdf")%string) ->
    Main.upload_file filename file_content pdf_id tmp_path st
    = (Raised
         (HTTPException 500
            (exception_str
               (HTTPException 400 "Only PDF files are allowed"))),
       st).
Proof.
  intros filename file_content pdf_id tmp_path st Hname.
  unfold Main.upload_file.
  destruct (endswith filename ".pdf") eqn:He; [|reflexivity].
  apply endswith_iff in He. destruct He as [prefix He].
  exfalso. now apply (Hname prefix).
Qed.

Lemma dict_get_map_values {A B} (f : A -> B) k (d : dict A) :
  dict_get k (map (fun kv => (fst kv, f (snd kv))) d)
  = option_map f (dict_get k d).
Proof.
  induction d as [|[k' v] d IH]; simpl; auto.
  destruct (String.eqb k' k); auto.
Qed.

(** X14: when [upload_file] returns a body, the file name ends in [.pdf],
    the body carries the generated id and the file name, and [GET /pdfs] on
    the resulting registry lists that id with that name. *)
Theorem upload_then_list :
  forall (filename : string) (file_content : list byte)
         (pdf_id tmp_path : string) (st : PDFManager) (body : json),
    fst (Main.upload_file filename file_content pdf_id tmp_path st)
    = Returned body ->
    let st' :=
      snd (Main.upload_file filename file_content pdf_id tmp_path st) in
    body = JObj [("message", JStr "PDF processed successfully");
                 ("pdf_id", JStr pdf_id);
                 ("pdf_name", JStr filename)]
    /\ (exists prefix, filename = (prefix ++ ".pdf")%string)
    /\ exists entries,
         Main.list_pdfs st' = Returned (JObj [("pdfs", JObj entries)])
         /\ dict_get pdf_id entries = Some (JStr filename).
Proof.
  intros filename file_content pdf_id tmp_path st body.
  unfold Main.upload_file.
  destruct (endswith filename ".pdf") eqn:He; simpl; [|discriminate].
  rewrite process_pdf_eq.
  destruct (process_pdf_splits pdf_id tmp_path file_content filename)
    as [splits|e]; simpl; [|discriminate].
  destruct (index_error splits); simpl; [discriminate|].
  destruct (update_combined_frame (stored pdf_id filename splits st))
    as (_ & Hn & _).
  destruct (_update_combined_vectorstore (stored pdf_id filename splits st))
    as [[u|e] s1]; simpl; [|discriminate].
  intros H. injection H as <-. split; [reflexivity|].
  split; [now apply endswith_iff|].
  eexists. split; [reflexivity|].
  rewrite (dict_get_map_values JStr). unfold list_pdfs. simpl in Hn.
  rewrite Hn. unfold stored. simpl. now rewrite dict_get_set_eq.
Qed.

(** X15: in the registry reached by any history, [DELETE] of an id that
    [get_pdf_name] does not know answers 500 with the text of the 404 it
    raised, and changes nothing. *)
Theorem delete_unknown_answers_500 :
  forall (ops : list op) (pdf_id : string),
    get_pdf_name pdf_id (run ops) = None ->
    Main.delete_pdf pdf_id (run ops)
    = (Raised
         (HTTPException 500
            (exception_str
               (HTTPException 404
                  ("PDF with ID " ++ pdf_id ++ " not found")))),
       run ops).
Proof.
  intros ops pdf_id Hnone.
  assert (Hm : dict_mem pdf_id (vectorstores (run ops)) = false).
  { rewrite <- (names_in_step_mem _ _ (run_names_in_step ops)).
    unfold get_pdf_name in Hnone. now rewrite dict_mem_get, Hnone. }
  unfold Main.delete_pdf. rewrite remove_pdf_eq, Hm. reflexivity.
Qed.

(** X16: in the registry reached by any history, after [DELETE] of an id
    the id is no longer listed, whatever the status of the response. *)
Theorem delete_unlists_the_id :
  forall (ops : list op) (pdf_id : string),
    get_pdf_name pdf_id (snd (Main.delete_pdf pdf_id (run ops))) = None.
Proof.
  intros ops pdf_id.
  pose proof (names_in_step_mem _ pdf_id (run_names_in_step ops)) as Hm.
  assert (Hs : snd (Main.delete_pdf pdf_id (run ops))
               = snd (remove_pdf pdf_id (run ops))).
  { unfold Main.delete_pdf.
    destruct (remove_pdf pdf_id (run ops)) as [[[|]|e] s]; reflexivity. }
  rewrite Hs. unfold get_pdf_name. rewrite remove_pdf_eq, Hm.
  destruct (dict_mem pdf_id (vectorstores (run ops))) eqn:Hv.
  - rewrite snd_after_update.
    destruct (update_combined_frame (deleted pdf_id (run ops)))
      as (_ & Hn & _).
    rewrite Hn. unfold deleted. simpl. apply dict_get_del_eq.
  - simpl. rewrite dict_mem_get in Hm.
    now destruct (dict_get pdf_id (pdf_names (run ops))).
Qed.

End WebLaws.

(** ** The merged index across removals and failed uploads *)

Section StaleIndex.
Context {E : Collaborators}.

(** X18: in the registry reached by any history, removing the only listed
    document returns [True] and leaves nothing listed, but the merged index
    stays that document's index, so [get_response] still sends a prompt
    built from its segments instead of the no-documents message. *)
Theorem removing_last_document_keeps_merged_index :
  forall (ops : list op) (pdf_id : string),
    dict_keys (list_pdfs (run ops)) = [pdf_id] ->
    let st' := snd (remove_pdf pdf_id (run ops)) in
    fst (remove_pdf pdf_id (run ops)) = Ok true
    /\ list_pdfs st' = []
    /\ vectorstores st' = []
    /\ get_combined_vectorstore st'
       = dict_get pdf_id (vectorstores (run ops))
    /\ get_combined_vectorstore st' <> None
    /\ forall (llm : ChatModel) (query : string),
         length (snd (get_response llm query st')) = 1.
Proof.
  intros ops pdf_id Hk st'. subst st'.
  pose proof (run_names_in_step ops) as Hn. unfold list_pdfs in *.
  assert (Hkv : dict_keys (vectorstores (run ops)) = [pdf_id])
    by (now rewrite Hn).
  destruct (single_key_dict _ _ Hkv) as [index Hv].
  assert (Hm : dict_mem pdf_id (pdf_names (run ops)) = true).
  { rewrite dict_mem_keys, Hk. simpl. now rewrite String.eqb_refl. }
  destruct (remove_last_keeps_combined pdf_id index (run ops) Hv Hm)
    as (Hr & Hv' & Hc).
  pose proof (run_single_is_alias ops pdf_id index Hv) as Ha.
  assert (Hnames : pdf_names (snd (remove_pdf pdf_id (run ops))) = []).
  { rewrite remove_pdf_eq, Hv, Hm. simpl. rewrite String.eqb_refl.
    rewrite snd_after_update.
    destruct (update_combined_frame (deleted pdf_id (run ops)))
      as (_ & Hfn & _).
    rewrite Hfn. unfold deleted. simpl.
    destruct (pdf_names (run ops)) as [|[k n] [|kn rest]];
      simpl in Hk; try discriminate.
    injection Hk as ->. simpl. now rewrite String.eqb_refl. }
  unfold get_combined_vectorstore. rewrite Hc, Ha, Hv. simpl.
  rewrite String.eqb_refl.
  repeat split; auto; try discriminate.
  intros llm query. unfold get_response, get_combined_vectorstore.
  rewrite Hc, Ha. unfold rag_chain_invoke. now destruct (llm _).
Qed.

(** X19: when [process_pdf] raises, the merged index is the one the
    registry had before the call, whatever was stored on the way. *)
Theorem failed_upload_keeps_merged_index :
  forall (st st' : PDFManager) (pdf_id tmp_path : string)
         (file_content : list byte) (file_name : string) (e : exn),
    process_pdf pdf_id tmp_path file_content file_name st = (Raise e, st') ->
    get_combined_vectorstore st' = get_combined_vectorstore st.
Proof.
  intros st st' pdf_id tmp_path file_content file_name e.
  rewrite process_pdf_eq.
  destruct (process_pdf_splits pdf_id tmp_path file_content file_name)
    as [splits|e0].
  - destruct (index_error splits) as [e1|].
    + intros H. now injection H as _ <-.
    + rewrite update_combined_eq.
      destruct (vectorstores (stored pdf_id file_name splits st))
        as [|[k v] [|kv2 rest]]; try discriminate.
      destruct (FAISS_from_documents
                  (all_docs (stored pdf_id file_name splits st)));
        [discriminate|].
      intros H. now injection H as _ <-.
  - intros H. now injection H as _ <-.
Qed.
End StaleIndex.

(** ** Runs on the reference collaborators *)

Import Reference.

(** C1: uploading one document and removing it leaves no registered document
    and no stored segment, yet the merged index is still the removed
    document's index: [_update_combined_vectorstore] returns early on an empty
    registry and never resets the merged index. *)
Theorem merged_index_stale_after_last_removal :
  let st := run [upload_a; Delete "id-a"] in
  returned (run [upload_a]) (Delete "id-a")
  /\ list_pdfs st = []
  /\ vectorstores st = []
  /\ documents st = []
  /\ registered_segments st = []
  /\ merged_segments st = [segment "alpha" "a.pdf" 0 "id-a"]
  /\ combined_vectorstore st <> None.
Proof. vm_compute. repeat split; try reflexivity. discriminate. Qed.

(** C2: after the only document is removed, no document is registered, but
    [get_response] does not return the no-documents message: it queries the
    stale merged index and returns the chat model's reply. *)
Theorem answer_after_last_removal_is_not_sentinel :
  let st := run [upload_a; Delete "id-a"] in
  let prompt :=
    template_format (repr_documents [segment "alpha" "a.pdf" 0 "id-a"])
      "what is alpha?" in
  list_pdfs st = []
  /\ get_response echo "what is alpha?" st
     = (Ok "alpha is in a.pdf", [prompt])
  /\ fst (get_response echo "what is alpha?" st) <> Ok no_pdfs_message
  /\ get_response echo "what is alpha?" init = (Ok no_pdfs_message, []).
Proof. vm_compute. repeat split; try reflexivity. discriminate. Qed.

(** C6: ingesting a document whose page has no text raises [IndexError] from
    the index construction, after the (empty) list of segments has been
    stored: [documents] keeps an entry for the rejected document, which
    [remove_pdf] does not find. *)
Theorem failed_ingestion_keeps_segments_entry :
  let outcome := process_pdf "id-0" "/tmp/tmp0.pdf" file_blank "blank.pdf" init in
  fst outcome = Raise (IndexError "list index out of range")
  /\ documents (snd outcome) = [("id-0", [])]
  /\ documents (snd outcome) <> documents init
  /\ vectorstores (snd outcome) = []
  /\ pdf_names (snd outcome) = []
  /\ remove_pdf "id-0" (snd outcome) = (Ok false, snd outcome).
Proof. vm_compute. repeat split; try reflexivity. discriminate. Qed.

(** C10: after a rejected upload (a page without text) and a completed one,
    [documents] holds two ids while [vectorstores] and [pdf_names] hold
    one. *)
Theorem key_sets_differ_after_failed_ingestion :
  let st := run [upload_blank; upload_a] in
  returned (run [upload_blank]) upload_a
  /\ dict_keys (documents st) = ["id-0"; "id-a"]
  /\ dict_keys (vectorstores st) = ["id-a"]
  /\ dict_keys (pdf_names st) = ["id-a"]
  /\ dict_keys (documents st) <> dict_keys (vectorstores st).
Proof. vm_compute. repeat split; try reflexivity. discriminate. Qed.

(** C7, as stated, fails: two ingestions of the same bytes under the same
    name and the same configuration produce segments whose metadata differ,
    in the [pdf_id] entry. *)
Lemma chunking_metadata_differs_between_ingestions :
  map_result (map page_content)
    (process_pdf_splits "id-1" "/tmp/tmp1.pdf" file_a "a.pdf")
  = map_result (map page_content)
      (process_pdf_splits "id-2" "/tmp/tmp2.pdf" file_a "a.pdf")
  /\ map_result (map metadata)
       (process_pdf_splits "id-1" "/tmp/tmp1.pdf" file_a "a.pdf")
     <> map_result (map metadata)
          (process_pdf_splits "id-2" "/tmp/tmp2.pdf" file_a "a.pdf").
Proof. vm_compute. split; [reflexivity|discriminate]. Qed.

Lemma single_document_aliasing_witness :
  let ops := [upload_a; upload_b; Delete "id-b"] in
  dict_keys (list_pdfs (run ops)) = ["id-a"]
  /\ exists index,
       vectorstores (run ops) = [("id-a", index)]
       /\ get_combined_vectorstore (run ops) = Some index
       /\ forall merged query k,
            get_combined_vectorstore (run ops) = Some merged ->
            similarity_search merged query k
            = similarity_search index query k.
Proof.
  split; [reflexivity|].
  apply (single_document_aliasing [upload_a; upload_b; Delete "id-b"] "id-a").
  reflexivity.
Defined.

Lemma merged_index_rebuilt_from_segments_witness :
  let st := run [upload_a] in
  returned st upload_b
  /\ 2 <= length (vectorstores (step st upload_b))
  /\ exists merged,
       FAISS_from_documents
         (concat (dict_values (documents (step st upload_b))))
       = Ok merged
       /\ combined_vectorstore (step st upload_b) = Some merged
       /\ forall indices,
            2 <= length indices ->
            _update_combined_vectorstore
              (with_vectorstores (fun _ => indices) (step st upload_b))
            = (Ok tt, with_vectorstores (fun _ => indices) (step st upload_b)).
Proof.
  split; [reflexivity|]. split; [vm_compute; lia|].
  apply (merged_index_rebuilt_from_segments (run [upload_a]) upload_b).
  - reflexivity.
  - vm_compute. lia.
Defined.

Lemma remove_pdf_unknown_and_known_witness :
  let st := run [upload_a; upload_b] in
  remove_pdf "id-x" st = (Ok false, st)
  /\ fst (remove_pdf "id-a" st) = Ok true
  /\ dict_get "id-a" (documents (snd (remove_pdf "id-a" st))) = None.
Proof.
  intros st.
  destruct (remove_pdf_unknown_and_known st "id-x") as [Hunknown _].
  destruct (remove_pdf_unknown_and_known st "id-a") as [_ Hknown].
  split; [apply Hunknown; reflexivity|].
  destruct (Hknown eq_refl eq_refl) as ((_ & Hd & _) & _ & _ & Hok).
  split; [apply Hok; reflexivity|exact Hd].
Defined.

Lemma process_pdf_stores_stamped_chunks_witness :
  let st' := snd (process_pdf "id-b" "/tmp/tmp2.pdf" file_b "b.pdf" init) in
  process_pdf "id-b" "/tmp/tmp2.pdf" file_b "b.pdf" init = (Ok "id-b", st')
  /\ exists texts splits,
       decode_pages file_b = Ok texts
       /\ dict_get "id-b" (documents st') = Some splits
       /\ map page_content splits = flat_map (split_text 1000 200) texts
       /\ Forall (fun seg =>
                    dict_get "pdf_id" (metadata seg) = Some (MStr "id-b")
                    /\ dict_get "source" (metadata seg)
                       = Some (MStr "b.pdf"))
                 splits
       /\ dict_get "id-b" (vectorstores st') = Some (mkFAISS splits)
       /\ dict_get "id-b" (pdf_names st') = Some "b.pdf".
Proof.
  intros st'.
  assert (H : process_pdf "id-b" "/tmp/tmp2.pdf" file_b "b.pdf" init
              = (Ok "id-b", st')) by reflexivity.
  split; [exact H|].
  apply (process_pdf_stores_stamped_chunks
           init st' "id-b" "/tmp/tmp2.pdf" file_b "b.pdf" "id-b" H).
Defined.

Lemma get_response_with_index_witness :
  let st := run [upload_a; upload_b] in
  let index :=
    mkFAISS [segment "alpha" "a.pdf" 0 "id-a";
             segment "beta one" "b.pdf" 0 "id-b";
             segment "beta two" "b.pdf" 1 "id-b"] in
  let prompt :=
    template_format
      (repr_documents (similarity_search index "what is beta?" 5))
      "what is beta?" in
  get_combined_vectorstore st = Some index
  /\ get_response unreachable "what is beta?" st
     = (map_result content (unreachable prompt), [prompt]).
Proof.
  intros st index prompt.
  assert (H : get_combined_vectorstore st = Some index) by reflexivity.
  split; [exact H|].
  apply (get_response_with_index unreachable "what is beta?" st index H).
Defined.

(** *** Witnesses of the further laws *)

Import ReferenceWeb.

Lemma process_pdf_keeps_other_documents_witness :
  let st := run [upload_a] in
  let st' := snd (process_pdf "id-b" "/tmp/tmp2.pdf" file_b "b.pdf" st) in
  "id-a" <> "id-b"
  /\ dict_get "id-a" (vectorstores st') = dict_get "id-a" (vectorstores st)
  /\ dict_get "id-a" (pdf_names st') = dict_get "id-a" (pdf_names st)
  /\ dict_get "id-a" (documents st') = dict_get "id-a" (documents st).
Proof.
  intros st st'.
  assert (H : "id-a" <> "id-b") by discriminate.
  split; [exact H|].
  apply (process_pdf_keeps_other_documents
           st "id-b" "/tmp/tmp2.pdf" file_b "b.pdf" "id-a" H).
Defined.

Lemma process_pdf_raise_cases_witness :
  let e := IndexError "list index out of range" in
  let st' := with_documents (dict_set "id-0" []) init in
  process_pdf "id-0" "/tmp/tmp0.pdf" file_blank "blank.pdf" init
  = (Raise e, st')
  /\ ((decode_pages file_blank = Raise e /\ st' = init)
      \/ (exists splits,
            process_pdf_splits "id-0" "/tmp/tmp0.pdf" file_blank "blank.pdf"
            = Ok splits
            /\ index_error splits = Some e
            /\ st' = with_documents (dict_set "id-0" splits) init)
      \/ (exists splits,
            process_pdf_splits "id-0" "/tmp/tmp0.pdf" file_blank "blank.pdf"
            = Ok splits
            /\ index_error splits = None
            /\ st' = stored "id-0" "blank.pdf" splits init
            /\ 2 <= length (vectorstores st')
            /\ FAISS_from_documents (all_docs st') = Raise e)).
Proof.
  intros e st'.
  assert (H : process_pdf "id-0" "/tmp/tmp0.pdf" file_blank "blank.pdf" init
              = (Raise e, st')) by reflexivity.
  split; [exact H|].
  apply (process_pdf_raise_cases
           init st' "id-0" "/tmp/tmp0.pdf" file_blank "blank.pdf" e H).
Defined.

Lemma upload_then_remove_restores_witness :
  let st := run [upload_a] in
  let st1 := snd (process_pdf "id-b" "/tmp/tmp2.pdf" file_b "b.pdf" st) in
  let st2 := snd (remove_pdf "id-b" st1) in
  process_pdf "id-b" "/tmp/tmp2.pdf" file_b "b.pdf" st = (Ok "id-b", st1)
  /\ vectorstores st2 = vectorstores st
  /\ pdf_names st2 = pdf_names st
  /\ documents st2 = documents st.
Proof.
  intros st st1 st2.
  assert (H : process_pdf "id-b" "/tmp/tmp2.pdf" file_b "b.pdf" st
              = (Ok "id-b", st1)) by reflexivity.
  split; [exact H|].
  apply (upload_then_remove_restores
           st st1 "id-b" "/tmp/tmp2.pdf" file_b "b.pdf" "id-b"
           eq_refl eq_refl eq_refl H).
Defined.

Lemma completed_upload_reaches_the_model_witness :
  let st' := snd (process_pdf "id-a" "/tmp/tmp1.pdf" file_a "a.pdf" init) in
  process_pdf "id-a" "/tmp/tmp1.pdf" file_a "a.pdf" init = (Ok "id-a", st')
  /\ get_combined_vectorstore st' <> None
  /\ forall (llm : ChatModel) (query : string),
       length (snd (get_response llm query st')) = 1.
Proof.
  intros st'.
  assert (H : process_pdf "id-a" "/tmp/tmp1.pdf" file_a "a.pdf" init
              = (Ok "id-a", st')) by reflexivity.
  split; [exact H|].
  apply (completed_upload_reaches_the_model
           init st' "id-a" "/tmp/tmp1.pdf" file_a "a.pdf" "id-a" H).
Defined.

Lemma complete_history_mappings_agree_witness :
  let ops := [upload_a; upload_b; Delete "id-a"; Delete "id-x"] in
  all_complete init ops = true
  /\ dict_keys (documents (run ops)) = dict_keys (vectorstores (run ops))
  /\ dict_keys (pdf_names (run ops)) = dict_keys (vectorstores (run ops))
  /\ forall pdf_id,
       dict_get pdf_id (documents (run ops))
       = option_map docstore (dict_get pdf_id (vectorstores (run ops))).
Proof.
  intros ops.
  assert (H : all_complete init ops = true) by reflexivity.
  split; [exact H|]. apply (complete_history_mappings_agree ops H).
Defined.

Lemma complete_history_merged_index_witness :
  let ops := [upload_a; upload_b; Delete "id-a"; upload_a] in
  all_complete init ops = true
  /\ list_pdfs (run ops) <> []
  /\ merged_segments (run ops) = registered_segments (run ops).
Proof.
  intros ops.
  assert (H : all_complete init ops = true) by reflexivity.
  assert (Hne : list_pdfs (run ops) <> []) by (vm_compute; discriminate).
  split; [exact H|]. split; [exact Hne|].
  apply (complete_history_merged_index ops H Hne).
Defined.

Lemma upload_rejects_other_names_witness :
  let st := run [upload_a] in
  (forall prefix, "REPORT.PDF" <> (prefix ++ ".pdf")%string)
  /\ Main.upload_file "REPORT.PDF" file_a "id-r" "/tmp/tmp3.pdf" st
     = (Raised
          (HTTPException 500 "400: Only PDF files are allowed"),
        st).
Proof.
  intros st.
  assert (H : forall prefix, "REPORT.PDF" <> (prefix ++ ".pdf")%string).
  { intros prefix Heq.
    assert (He : endswith "REPORT.PDF" ".pdf" = true)
      by (apply endswith_iff; now exists prefix).
    discriminate He. }
  split; [exact H|].
  exact (upload_rejects_other_names (W := web)
           "REPORT.PDF" file_a "id-r" "/tmp/tmp3.pdf" st H).
Defined.

Lemma upload_then_list_witness :
  let body :=
    JObj [("message", JStr "PDF processed successfully");
          ("pdf_id", JStr "id-b");
          ("pdf_name", JStr "b.pdf")] in
  let st' :=
    snd (Main.upload_file "b.pdf" file_b "id-b" "/tmp/tmp2.pdf"
           (run [upload_a])) in
  fst (Main.upload_file "b.pdf" file_b "id-b" "/tmp/tmp2.pdf"
         (run [upload_a]))
  = Returned body
  /\ exists entries,
       Main.list_pdfs st' = Returned (JObj [("pdfs", JObj entries)])
       /\ dict_get "id-b" entries = Some (JStr "b.pdf").
Proof.
  intros body st'.
  assert (H : fst (Main.upload_file "b.pdf" file_b "id-b" "/tmp/tmp2.pdf"
                     (run [upload_a])) = Returned body) by reflexivity.
  split; [exact H|].
  apply (upload_then_list
           "b.pdf" file_b "id-b" "/tmp/tmp2.pdf" (run [upload_a]) body H).
Defined.

Lemma delete_unknown_answers_500_witness :
  let ops := [upload_a; upload_blank] in
  get_pdf_name "id-0" (run ops) = None
  /\ Main.delete_pdf "id-0" (run ops)
     = (Raised
          (HTTPException 500 "404: PDF with ID id-0 not found"),
        run ops).
Proof.
  intros ops.
  assert (H : get_pdf_name "id-0" (run ops) = None) by reflexivity.
  split; [exact H|].
  exact (delete_unknown_answers_500 (W := web) ops "id-0" H).
Defined.

Lemma removing_last_document_keeps_merged_index_witness :
  let ops := [upload_a; upload_b; Delete "id-a"] in
  let st' := snd (remove_pdf "id-b" (run ops)) in
  dict_keys (list_pdfs (run ops)) = ["id-b"]
  /\ fst (remove_pdf "id-b" (run ops)) = Ok true
  /\ list_pdfs st' = []
  /\ get_combined_vectorstore st' <> None.
Proof.
  intros ops st'.
  assert (H : dict_keys (list_pdfs (run ops)) = ["id-b"]) by reflexivity.
  split; [exact H|].
  destruct (removing_last_document_keeps_merged_index ops "id-b" H)
    as (Hr & Hl & _ & _ & Hc & _).
  auto.
Defined.

Lemma failed_upload_keeps_merged_index_witness :
  let st := run [upload_a] in
  let st' :=
    snd (process_pdf "id-0" "/tmp/tmp0.pdf" file_blank "blank.pdf" st) in
  process_pdf "id-0" "/tmp/tmp0.pdf" file_blank "blank.pdf" st
  = (Raise (IndexError "list index out of range"), st')
  /\ get_combined_vectorstore st' = get_combined_vectorstore st.
Proof.
  intros st st'.
  assert (H : process_pdf "id-0" "/tmp/tmp0.pdf" file_blank "blank.pdf" st
              = (Raise (IndexError "list index out of range"), st'))
    by reflexivity.
  split; [exact H|].
  apply (failed_upload_keeps_merged_index
           st st' "id-0" "/tmp/tmp0.pdf" file_blank "blank.pdf" _ H).
Defined.

Lemma listed_ids_are_the_removable_ones_witness :
  let ops := [upload_a; upload_blank] in
  get_pdf_name "id-0" (run ops) = None
  /\ remove_pdf "id-0" (run ops) = (Ok false, run ops).
Proof.
  intros ops.
  assert (H : get_pdf_name "id-0" (run ops) = None) by reflexivity.
  split; [exact H|].
  destruct (listed_ids_are_the_removable_ones ops "id-0") as [[Hto _] _].
  exact (Hto H).
Defined.


